(** * unic-mpesa: the M-Pesa STK push server of [src/app.js]

    A shallow embedding of the Express application of [src/app.js]
    and the properties of its initiation and callback routes.  The
    file holds two variants of the application; the one embedded here
    is the first (lines 1-302), which declares [pendingTransactions]
    and reads [phoneNumber] and [amount] from the request.

    The handlers are JavaScript: their inputs are values produced by
    the body parsers and by the gateway, so the embedding starts with
    a model of those values and of the coercions the handlers apply to
    them ([!x], [isNaN], [<=], [RegExp.prototype.test], template
    literals, [Buffer.from(s).toString("base64")]).  The handlers
    themselves are written in a state-and-exception monad whose state
    holds the [pendingTransactions] map and the trace of outbound
    calls. *)

From Stdlib Require Import Bool Ascii String ZArith NArith List Lia.
From Stdlib Require Import DecimalString.
Import ListNotations.

Set Warnings "-register-all".

Local Open Scope string_scope.
Local Open Scope Z_scope.

(** ** Byte strings

    A JavaScript string is modelled by the sequence of bytes of its
    UTF-8 encoding, which is what [Buffer.from(s)] produces; the
    strings the server builds are concatenations of such sequences. *)

Module Str.

Definition code (c : ascii) : N := N_of_ascii c.

Definition in_range (lo hi : N) (c : ascii) : bool :=
  (lo <=? code c)%N && (code c <=? hi)%N.

Definition is_digit : ascii -> bool := in_range 48 57.

Fixpoint all (p : ascii -> bool) (s : string) : bool :=
  match s with
  | EmptyString => true
  | String c r => p c && all p r
  end.

(** The longest prefix whose characters satisfy [p], and the rest. *)
Fixpoint span (p : ascii -> bool) (s : string) : string * string :=
  match s with
  | EmptyString => (EmptyString, EmptyString)
  | String c r =>
      if p c then let (a, b) := span p r in (String c a, b)
      else (EmptyString, s)
  end.

Fixpoint rev_onto (s acc : string) : string :=
  match s with
  | EmptyString => acc
  | String c r => rev_onto r (String c acc)
  end.

Definition rev (s : string) : string := rev_onto s EmptyString.

Fixpoint repeat (c : ascii) (n : nat) : string :=
  match n with
  | O => EmptyString
  | S k => String c (repeat c k)
  end.

Definition len (s : string) : Z := Z.of_nat (String.length s).

Definition take (n : Z) (s : string) : string :=
  String.substring 0 (Z.to_nat n) s.

Definition drop (n : Z) (s : string) : string :=
  String.substring (Z.to_nat n) (String.length s - Z.to_nat n) s.

Fixpoint join (sep : string) (l : list string) : string :=
  match l with
  | [] => EmptyString
  | [x] => x
  | x :: r => x ++ sep ++ join sep r
  end.

(** Decimal digits of a natural number, without leading zeros. *)
Definition of_N (n : N) : string := NilEmpty.string_of_uint (N.to_uint n).

Definition digit_value (c : ascii) : Z :=
  let n := Z.of_N (code c) in
  if in_range 48 57 c then n - 48
  else if in_range 97 122 c then n - 87
  else n - 55.

(** Value of a digit string in the given radix, most significant
    digit first. *)
Fixpoint value_in (radix : Z) (s : string) (acc : Z) : Z :=
  match s with
  | EmptyString => acc
  | String c r => value_in radix r (acc * radix + digit_value c)
  end.

End Str.

(** ** [Buffer.from(s).toString("base64")] *)

Module Base64.

Definition alphabet : string :=
  "ABCDEFGHIJKLMNOPQRSTUVWXYZabcdefghijklmnopqrstuvwxyz0123456789+/".

Definition digit (n : N) : ascii :=
  match String.get (N.to_nat n) alphabet with
  | Some c => c
  | None => "="%char
  end.

(** Three bytes give four digits; a final group of one or two bytes
    is padded with ["="]. *)
Fixpoint encode (s : string) : string :=
  match s with
  | EmptyString => EmptyString
  | String a EmptyString =>
      let x := Str.code a in
      String (digit (x / 4))
        (String (digit ((x mod 4) * 16)) "==")
  | String a (String b EmptyString) =>
      let x := Str.code a in
      let y := Str.code b in
      String (digit (x / 4))
        (String (digit ((x mod 4) * 16 + y / 16))
           (String (digit ((y mod 16) * 4)) "="))
  | String a (String b (String c r)) =>
      let x := Str.code a in
      let y := Str.code b in
      let z := Str.code c in
      String (digit (x / 4))
        (String (digit ((x mod 4) * 16 + y / 16))
           (String (digit ((y mod 16) * 4 + z / 64))
              (String (digit (z mod 64)) (encode r))))
  end%N.

End Base64.


(** ** JavaScript values

    [req.body], the gateway's response bodies and the callback payload
    are parsed JSON (or a parsed URL-encoded form); reading a property
    that is absent gives [undefined].

    A finite Number is written as a decimal literal, [Dec m e] for
    [m * 10^e], and stands for the binary64 value of that literal;
    every operation on Numbers below goes through that value. *)

Module Js.

Inductive number : Type :=
| NaN
| Inf (negative : bool)
| Dec (m e : Z).

Inductive value : Type :=
| Undefined
| Null
| Bool (b : bool)
| Num (n : number)
| Str (s : string)
| Arr (items : list value)
| Obj (fields : list (string * value)).

(** Exceptions the handlers can meet: the TypeError of a property read
    on [null] or [undefined] (or of calling what is not a function), a
    rejected axios promise, and [new Error(msg)]. *)
Inductive exn : Type :=
| TypeError
| AxiosError
| Error (msg : string).

Inductive result (A : Type) : Type :=
| Ok (a : A)
| Throw (e : exn).

Arguments Ok {A} a.
Arguments Throw {A} e.

Definition int (z : Z) : value := Num (Dec z 0).

(** *** Numbers

    A Number is a binary64 value.  [Dec m e] stands for the Number
    that the decimal [m * 10^e] denotes, which is that decimal rounded
    to the nearest binary64 value, ties to the even significand, with
    underflow to zero and overflow to an infinity: the value that
    [JSON.parse] and [Number] give to the literal.  The sign of a zero
    is not kept ([-0] and [+0] are told apart by nothing the server
    does). *)

(** A binary64 value: [BFin negative M E] is [M * 2^E], with
    [0 < M < 2^53] and [-1074 <= E <= 971], and [2^52 <= M] unless
    [E = -1074]. *)
Inductive binary64 : Type :=
| BNaN
| BInf (negative : bool)
| BZero
| BFin (negative : bool) (M E : Z).

(** [floor (log2 (n / d))], for positive [n] and [d]. *)
Definition floor_log2_ratio (n d : Z) : Z :=
  let l := Z.log2 n - Z.log2 d in
  if 0 <=? l then (if n <? d * 2 ^ l then l - 1 else l)
  else (if n * 2 ^ (- l) <? d then l - 1 else l).

(** [n / d] rounded to the nearest integer, ties to even. *)
Definition round_half_even (n d : Z) : Z :=
  let q := n / d in
  let r := n mod d in
  if 2 * r <? d then q
  else if d <? 2 * r then q + 1
  else if Z.even q then q else q + 1.

(** The binary64 value nearest to [n / d], for positive [n] and
    [d]. *)
Definition round_ratio (negative : bool) (n d : Z) : binary64 :=
  let l := floor_log2_ratio n d in
  let E := Z.max (l - 52) (-1074) in
  let M :=
    if 0 <=? E then round_half_even n (d * 2 ^ E)
    else round_half_even (n * 2 ^ (- E)) d in
  let (M', E') := if M =? 2 ^ 53 then (2 ^ 52, E + 1) else (M, E) in
  if M' =? 0 then BZero
  else if 971 <? E' then BInf negative
  else BFin negative M' E'.

(** The binary64 value that the decimal [m * 10^e] denotes. *)
Definition round_decimal (m e : Z) : binary64 :=
  if m =? 0 then BZero
  else if 0 <=? e then round_ratio (m <? 0) (Z.abs m * 10 ^ e) 1
  else round_ratio (m <? 0) (Z.abs m) (10 ^ (- e)).

Definition to_binary64 (x : number) : binary64 :=
  match x with
  | NaN => BNaN
  | Inf negative => BInf negative
  | Dec m e => round_decimal m e
  end.

Definition binary64_eqb (a b : binary64) : bool :=
  match a, b with
  | BNaN, BNaN => true
  | BInf x, BInf y => Bool.eqb x y
  | BZero, BZero => true
  | BFin x M E, BFin y M' E' => Bool.eqb x y && (M =? M') && (E =? E')
  | _, _ => false
  end.

Definition is_nan (n : number) : bool :=
  match n with NaN => true | _ => false end.

(** [n <= 0] on Numbers; false when [n] is [NaN]. *)
Definition le_zero (n : number) : bool :=
  match to_binary64 n with
  | BNaN => false
  | BInf negative => negative
  | BZero => true
  | BFin negative _ _ => negative
  end.

Definition is_zero (n : number) : bool :=
  match to_binary64 n with
  | BZero => true
  | _ => false
  end.

(** [10^c <= n / d], for positive [n] and [d]. *)
Definition pow10_le (c n d : Z) : bool :=
  if 0 <=? c then d * 10 ^ c <=? n else d <=? n * 10 ^ (- c).

(** [floor (log10 (n / d))], for [n / d] in the range of binary64:
    within two of the estimate that the binary logarithm gives. *)
Definition floor_log10_ratio (n d : Z) : Z :=
  let c := floor_log2_ratio n d * 30103 / 100000 in
  if pow10_le (c + 2) n d then c + 2
  else if pow10_le (c + 1) n d then c + 1
  else if pow10_le c n d then c
  else if pow10_le (c - 1) n d then c - 1
  else c - 2.

(** The decimal [s * 10^p] with [k] digits that denotes [target], if
    there is one: [s] is one of the two integers around
    [(n / d) / 10^p], the nearer one when both denote [target] and the
    even one when they are as near. *)
Definition decimal_of_length (target : binary64) (n d decade k : Z)
  : option (Z * Z) :=
  let p := decade - k in
  let (sn, sd) := if 0 <=? p then (n, d * 10 ^ p) else (n * 10 ^ (- p), d) in
  let lo := sn / sd in
  let r := sn mod sd in
  let hi := lo + 1 in
  let lo_fits := binary64_eqb (round_decimal lo p) target in
  let hi_fits := binary64_eqb (round_decimal hi p) target in
  if lo_fits && hi_fits then
    Some (if 2 * r <? sd then lo
          else if sd <? 2 * r then hi
          else if Z.even lo then lo else hi, p)
  else if lo_fits then Some (lo, p)
  else if hi_fits then Some (hi, p)
  else None.

Fixpoint shortest_from (tries : nat) (k : Z) (target : binary64)
  (n d decade : Z) : Z * Z :=
  match tries with
  | O => (0, 0)
  | S t =>
      match decimal_of_length target n d decade k with
      | Some r => r
      | None => shortest_from t (k + 1) target n d decade
      end
  end.

(** The shortest decimal [s * 10^p] that denotes [M * 2^E]; seventeen
    digits always suffice. *)
Definition shortest_digits (M E : Z) : Z * Z :=
  let (n, d) := if 0 <=? E then (M * 2 ^ E, 1) else (M, 2 ^ (- E)) in
  shortest_from 17 1 (BFin false M E) n d (floor_log10_ratio n d + 1).

(** [s * 10^p] without the trailing zeros of [s]. *)
Fixpoint strip10 (tries : nat) (s p : Z) : Z * Z :=
  match tries with
  | O => (s, p)
  | S t =>
      if (s mod 10 =? 0) && negb (s =? 0) then strip10 t (s / 10) (p + 1)
      else (s, p)
  end.

Definition shortest_decimal (M E : Z) : Z * Z :=
  let (s, p) := shortest_digits M E in strip10 17 s p.

(** Splits the digits of a positive integer into the digits without
    their trailing zeros and the number of zeros removed. *)
Definition strip_zeros (digits : string) : string * Z :=
  let (zeros, rest) := Str.span (Ascii.eqb "0") (Str.rev digits) in
  (Str.rev rest, Str.len zeros).

Definition exponent_part (n : Z) : string :=
  String "e" ((if 0 <? n - 1 then "+" else "-")
                ++ Str.of_N (Z.to_N (Z.abs (n - 1)))).

(** Number::toString (radix 10) for [s * 10^(n-k)], where [digits] are
    the [k] digits of [s] and [s] does not end in zero. *)
Definition digits_to_string (digits : string) (n : Z) : string :=
  let k := Str.len digits in
  if (k <=? n) && (n <=? 21) then
    digits ++ Str.repeat "0" (Z.to_nat (n - k))
  else if (0 <? n) && (n <=? 21) then
    Str.take n digits ++ "." ++ Str.drop n digits
  else if (-6 <? n) && (n <=? 0) then
    "0." ++ Str.repeat "0" (Z.to_nat (- n)) ++ digits
  else if k =? 1 then
    digits ++ exponent_part n
  else
    Str.take 1 digits ++ "." ++ Str.drop 1 digits ++ exponent_part n.

(** Number::toString: the digits of the shortest decimal that denotes
    the Number. *)
Definition number_to_string (x : number) : string :=
  match to_binary64 x with
  | BNaN => "NaN"
  | BInf false => "Infinity"
  | BInf true => "-Infinity"
  | BZero => "0"
  | BFin negative M E =>
      let (s, p) := shortest_decimal M E in
      let (digits, zeros) := strip_zeros (Str.of_N (Z.to_N s)) in
      (if negative then "-" else "")
        ++ digits_to_string digits (Str.len digits + (p + zeros))
  end.

(** The Number of [x], written as its shortest decimal. *)
Definition canonical (x : number) : number :=
  match to_binary64 x with
  | BNaN => NaN
  | BInf negative => Inf negative
  | BZero => Dec 0 0
  | BFin negative M E =>
      let (s, p) := shortest_decimal M E in
      Dec (if negative then - s else s) p
  end.

(** *** Numeric strings (StringToNumber) *)

(** The white space and line terminators of the language, as UTF-8
    byte sequences: TAB, LF, VT, FF, CR, SP, NBSP, U+1680,
    U+2000..U+200A, U+2028, U+2029, U+202F, U+205F, U+3000, U+FEFF. *)
Definition white_space : list string :=
  List.map (fun l => string_of_list_ascii (List.map ascii_of_N l))
    [ [9]; [10]; [11]; [12]; [13]; [32]; [194; 160]; [225; 154; 128];
      [226; 128; 128]; [226; 128; 129]; [226; 128; 130]; [226; 128; 131];
      [226; 128; 132]; [226; 128; 133]; [226; 128; 134]; [226; 128; 135];
      [226; 128; 136]; [226; 128; 137]; [226; 128; 138]; [226; 128; 168];
      [226; 128; 169]; [226; 128; 175]; [226; 129; 159]; [227; 128; 128];
      [239; 187; 191] ]%N.

(** [strip_prefix p s] is what follows [p] in [s], when [s] starts
    with [p]. *)
Fixpoint strip_prefix (p s : string) : option string :=
  match p, s with
  | EmptyString, _ => Some s
  | String a p', String b s' =>
      if Ascii.eqb a b then strip_prefix p' s' else None
  | String _ _, EmptyString => None
  end.

Fixpoint strip_any (ps : list string) (s : string) : option string :=
  match ps with
  | [] => None
  | p :: r =>
      match strip_prefix p s with
      | Some s' => Some s'
      | None => strip_any r s
      end
  end.

Fixpoint trim_start_fuel (ws : list string) (fuel : nat) (s : string)
  : string :=
  match fuel with
  | O => s
  | S k =>
      match strip_any ws s with
      | Some s' => trim_start_fuel ws k s'
      | None => s
      end
  end.

Definition trim_start (s : string) : string :=
  trim_start_fuel white_space (String.length s) s.

Definition trim_end (s : string) : string :=
  Str.rev (trim_start_fuel (List.map Str.rev white_space)
             (String.length s) (Str.rev s)).

Definition trim (s : string) : string := trim_end (trim_start s).

Definition is_hex_digit (c : ascii) : bool :=
  Str.is_digit c || Str.in_range 97 102 c || Str.in_range 65 70 c.

(** A non-empty digit string in the given radix, as a Number. *)
Definition radix_literal (radix : Z) (ok : ascii -> bool) (s : string)
  : number :=
  match s with
  | EmptyString => NaN
  | _ => if Str.all ok s then Dec (Str.value_in radix s 0) 0 else NaN
  end.

(** The exponent of a decimal literal: nothing, or [e] or [E], an
    optional sign and at least one digit. *)
Definition exponent_literal (s : string) : option Z :=
  match s with
  | EmptyString => Some 0
  | String c r =>
      if Ascii.eqb c "e" || Ascii.eqb c "E" then
        let (negative, ds) :=
          match r with
          | String "-" r' => (true, r')
          | String "+" r' => (false, r')
          | _ => (false, r)
          end in
        match ds with
        | EmptyString => None
        | _ =>
            if Str.all Str.is_digit ds then
              let v := Str.value_in 10 ds 0 in
              Some (if negative then - v else v)
            else None
        end
      else None
  end.

(** An unsigned decimal literal: [digits], [digits.], [digits.digits]
    or [.digits], followed by an optional exponent. *)
Definition unsigned_decimal (negative : bool) (s : string) : number :=
  let (ip, r1) := Str.span Str.is_digit s in
  let (fp, r2) :=
    match r1 with
    | String "." r => Str.span Str.is_digit r
    | _ => (EmptyString, r1)
    end in
  match ip ++ fp with
  | EmptyString => NaN
  | ds =>
      match exponent_literal r2 with
      | None => NaN
      | Some x =>
          let m := Str.value_in 10 ds 0 in
          Dec (if negative then - m else m) (x - Str.len fp)
      end
  end.

Definition signed_decimal (negative : bool) (s : string) : number :=
  if String.eqb s "Infinity" then Inf negative
  else unsigned_decimal negative s.

(** The literal of a numeric string: the trimmed string is empty
    (zero), a radix-prefixed integer without sign, or a signed decimal
    literal; anything else is [NaN]. *)
Definition string_literal (s : string) : number :=
  match trim s with
  | EmptyString => Dec 0 0
  | String "0" (String "x" r) | String "0" (String "X" r) =>
      radix_literal 16 is_hex_digit r
  | String "0" (String "o" r) | String "0" (String "O" r) =>
      radix_literal 8 (Str.in_range 48 55) r
  | String "0" (String "b" r) | String "0" (String "B" r) =>
      radix_literal 2 (Str.in_range 48 49) r
  | String "-" r => signed_decimal true r
  | String "+" r => signed_decimal false r
  | t => signed_decimal false t
  end.

(** StringToNumber: the Number that the literal denotes. *)
Definition string_to_number (s : string) : number :=
  canonical (string_literal s).

(** *** Coercions *)

(** ToBoolean, as applied by [!x] and [if (x)]. *)
Definition truthy (v : value) : bool :=
  match v with
  | Undefined | Null => false
  | Bool b => b
  | Num n => negb (is_nan n || is_zero n)
  | Str s => negb (String.eqb s "")
  | Arr _ | Obj _ => true
  end.

Fixpoint has_key (k : string) (fields : list (string * value)) : bool :=
  match fields with
  | [] => false
  | (k', _) :: r => String.eqb k k' || has_key k r
  end.

(** ToString.  An array is joined with commas, [null] and [undefined]
    elements giving the empty string.  A parsed object inherits
    [Object.prototype.toString]; when it has an own [toString] property
    (a JSON value, hence not callable) no method yields a primitive and
    the conversion throws a TypeError. *)
Fixpoint to_string (v : value) : result string :=
  match v with
  | Undefined => Ok "undefined"
  | Null => Ok "null"
  | Bool true => Ok "true"
  | Bool false => Ok "false"
  | Num n => Ok (number_to_string n)
  | Str s => Ok s
  | Arr items =>
      let fix elements (l : list value) : result (list string) :=
        match l with
        | [] => Ok []
        | x :: r =>
            match
              match x with
              | Undefined | Null => Ok ""
              | _ => to_string x
              end
            with
            | Throw e => Throw e
            | Ok s =>
                match elements r with
                | Throw e => Throw e
                | Ok ss => Ok (s :: ss)
                end
            end
        end in
      match elements items with
      | Throw e => Throw e
      | Ok ss => Ok (Str.join "," ss)
      end
  | Obj fields =>
      if has_key "toString" fields then Throw TypeError
      else Ok "[object Object]"
  end.

(** ToNumber; arrays and objects go through their string form. *)
Definition to_number (v : value) : result number :=
  match v with
  | Undefined => Ok NaN
  | Null => Ok (Dec 0 0)
  | Bool true => Ok (Dec 1 0)
  | Bool false => Ok (Dec 0 0)
  | Num n => Ok n
  | Str s => Ok (string_to_number s)
  | Arr _ | Obj _ =>
      match to_string v with
      | Throw e => Throw e
      | Ok s => Ok (string_to_number s)
      end
  end.

(** [v === s] for a string literal [s]. *)
Definition is_string (s : string) (v : value) : bool :=
  match v with
  | Str t => String.eqb t s
  | _ => false
  end.

(** *** Property reads

    [get v k] is [v.k] for the property names this program reads
    ([Body], [stkCallback], [CheckoutRequestID], [Item], [Name],
    [access_token], [phoneNumber], ...): none of them is defined on a
    prototype, so the read gives the own property of an object, and
    [undefined] on an array or a primitive; on [null] and [undefined]
    it throws.  [fields] lists the own properties of an object, each
    key once. *)
Fixpoint lookup (k : string) (fields : list (string * value)) : value :=
  match fields with
  | [] => Undefined
  | (k', v) :: r => if String.eqb k k' then v else lookup k r
  end.

Definition get (v : value) (k : string) : result value :=
  match v with
  | Undefined | Null => Throw TypeError
  | Obj fields => Ok (lookup k fields)
  | _ => Ok Undefined
  end.

(** The elements [v.forEach(f)] visits: [forEach] is a function on
    arrays only, and a parsed array has no holes. *)
Definition for_each_items (v : value) : result (list value) :=
  match v with
  | Arr items => Ok items
  | _ => Throw TypeError
  end.

(** SameValueZero, the key equality of [Map]; an object or an array
    parsed from a request is a fresh reference, equal to no stored
    key. *)
Definition number_same (a b : number) : bool :=
  binary64_eqb (to_binary64 a) (to_binary64 b).

Definition same_value_zero (a b : value) : bool :=
  match a, b with
  | Undefined, Undefined => true
  | Null, Null => true
  | Bool x, Bool y => Bool.eqb x y
  | Num x, Num y => number_same x y
  | Str x, Str y => String.eqb x y
  | _, _ => false
  end.

(** *** The [+] operator

    ToPrimitive leaves a primitive as it is and takes an array or an
    object to its string form; [+] concatenates when either primitive
    is a string and adds Numbers otherwise. *)
Definition to_primitive (v : value) : result value :=
  match v with
  | Arr _ | Obj _ =>
      match to_string v with
      | Throw e => Throw e
      | Ok s => Ok (Str s)
      end
  | _ => Ok v
  end.

(** A finite binary64 value as an exact decimal. *)
Definition exact_decimal (negative : bool) (M E : Z) : Z * Z :=
  let m := if negative then - M else M in
  if 0 <=? E then (m * 2 ^ E, 0) else (m * 5 ^ (- E), E).

(** Addition of Numbers: the exact sum of the two binary64 values,
    which stands for its rounding. *)
Definition number_add (a b : number) : number :=
  match a, b with
  | NaN, _ | _, NaN => NaN
  | _, _ =>
      match to_binary64 a, to_binary64 b with
      | BInf x, BInf y => if Bool.eqb x y then Inf x else NaN
      | BInf x, _ => Inf x
      | _, BInf y => Inf y
      | BFin x M E, BFin y M' E' =>
          let (m, e) := exact_decimal x M E in
          let (m', e') := exact_decimal y M' E' in
          let k := Z.min e e' in
          canonical (Dec (m * 10 ^ (e - k) + m' * 10 ^ (e' - k)) k)
      | BFin _ _ _, _ => canonical a
      | _, BFin _ _ _ => canonical b
      | _, _ => Dec 0 0
      end
  end.

Definition bind {A B : Type} (r : result A) (f : A -> result B)
  : result B :=
  match r with
  | Ok a => f a
  | Throw e => Throw e
  end.

Definition plus (a b : value) : result value :=
  bind (to_primitive a) (fun pa =>
  bind (to_primitive b) (fun pb =>
    match pa, pb with
    | Str _, _ | _, Str _ =>
        bind (to_string pa) (fun sa =>
        bind (to_string pb) (fun sb => Ok (Str (sa ++ sb))))
    | _, _ =>
        bind (to_number pa) (fun na =>
        bind (to_number pb) (fun nb => Ok (Num (number_add na nb))))
    end)).

(** [Buffer.from(v)] for the argument the server passes, which is a
    string: its bytes. *)
Definition buffer_from (v : value) : result string :=
  match v with
  | Str s => Ok s
  | _ => Throw TypeError
  end.

(** [process.env.NAME] as a value. *)
Definition of_env (x : option string) : value :=
  match x with
  | Some s => Str s
  | None => Undefined
  end.

End Js.

(** ** The server's world

    What a handler reads from outside during one request: the
    environment variables, the clock behind [moment()], and the
    gateway's answers to [axios.get] and [axios.post]. *)

Record DateTime : Type := {
  year : N; month : N; day : N; hour : N; minute : N; second : N
}.

(** Decimal digits of [n], padded with zeros to at least [width]. *)
Definition pad (width : nat) (n : N) : string :=
  let d := Str.of_N n in
  Str.repeat "0" (width - String.length d) ++ d.

(** [moment().format("YYYYMMDDHHmmss")], for the years up to 9999. *)
Definition format_YYYYMMDDHHmmss (t : DateTime) : string :=
  pad 4 (year t) ++ pad 2 (month t) ++ pad 2 (day t)
    ++ pad 2 (hour t) ++ pad 2 (minute t) ++ pad 2 (second t).

(** The [requestData] object of the [/stkpush] handler. *)
Record StkRequest : Type := {
  BusinessShortCode : Js.value;
  Password : string;
  Timestamp : string;
  TransactionType : string;
  Amount : Js.value;
  PartyA : Js.value;
  PartyB : Js.value;
  PhoneNumber : Js.value;
  CallBackURL : Js.value;
  AccountReference : Js.value;
  TransactionDesc : Js.value
}.

(** The [baseTransaction] object of the [/stk_callback] handler. *)
Record Transaction : Type := {
  checkoutRequestID : Js.value;
  merchantRequestID : Js.value;
  resultCode : Js.value;
  resultDesc : Js.value;
  mpesaReceiptNumber : Js.value;
  amount : Js.value;
  transactionDate : Js.value;
  phoneNumber : Js.value;
  userId : Js.value
}.

(** An axios promise that settles: rejected (no answer, or a status
    outside 2xx), or resolved with [response.data].  The calls pass no
    timeout; a promise that never settles leaves the request without
    answer and is not among the outcomes here, so every statement
    below speaks of calls that settle. *)
Inductive axios_result : Type :=
| Rejected
| Resolved (data : Js.value).

Record World : Type := {
  env : string -> option string;
  clock : DateTime;
  http_get : string -> string -> axios_result;
  http_post : string -> StkRequest -> string -> axios_result
}.

(** Outbound calls, in the order they are made: the two gateway
    requests, with their [Authorization] header, and
    [databases.createDocument] of the Appwrite SDK. *)
Inductive event : Type :=
| HttpGet (url authorization : string)
| HttpPost (url : string) (data : StkRequest) (authorization : string)
| CreateDocument (document : Transaction).

(** The process state: the [pendingTransactions] map, as its entries
    in insertion order, and the calls made so far. *)
Record State : Type := {
  pendingTransactions : list (Js.value * Js.value);
  trace : list event
}.

Definition initial_state : State :=
  {| pendingTransactions := []; trace := [] |}.

(** [Map.prototype.get] and [Map.prototype.has]. *)
Fixpoint map_get (m : list (Js.value * Js.value)) (k : Js.value)
  : Js.value :=
  match m with
  | [] => Js.Undefined
  | (k', v) :: r => if Js.same_value_zero k' k then v else map_get r k
  end.

Fixpoint map_has (m : list (Js.value * Js.value)) (k : Js.value) : bool :=
  match m with
  | [] => false
  | (k', _) :: r => Js.same_value_zero k' k || map_has r k
  end.

Definition is_network (e : event) : bool :=
  match e with
  | HttpGet _ _ | HttpPost _ _ _ => true
  | CreateDocument _ => false
  end.

Definition is_persistence (e : event) : bool :=
  match e with
  | CreateDocument _ => true
  | _ => false
  end.

Definition network_calls (st : State) : list event :=
  List.filter is_network (trace st).

Definition persisted (st : State) : list event :=
  List.filter is_persistence (trace st).

(** ** The handler monad: state and exceptions *)

Definition M (A : Type) : Type := State -> Js.result A * State.

Definition ret {A : Type} (a : A) : M A := fun st => (Js.Ok a, st).

Definition throw {A : Type} (e : Js.exn) : M A := fun st => (Js.Throw e, st).

Definition mbind {A B : Type} (m : M A) (f : A -> M B) : M B :=
  fun st =>
    match m st with
    | (Js.Ok a, st') => f a st'
    | (Js.Throw e, st') => (Js.Throw e, st')
    end.

Definition lift {A : Type} (r : Js.result A) : M A := fun st => (r, st).

(** [try { m } catch (error) { h error }]. *)
Definition try_catch {A : Type} (m : M A) (h : Js.exn -> M A) : M A :=
  fun st =>
    match m st with
    | (Js.Ok a, st') => (Js.Ok a, st')
    | (Js.Throw e, st') => h e st'
    end.

Definition emit (e : event) : M unit :=
  fun st =>
    (Js.Ok tt, {| pendingTransactions := pendingTransactions st;
                  trace := trace st ++ [e] |}).

Definition read_pending : M (list (Js.value * Js.value)) :=
  fun st => (Js.Ok (pendingTransactions st), st).

Notation "x <- m ;; k" := (mbind m (fun x => k))
  (at level 61, m at next level, right associativity).
Notation "m ;;; k" := (mbind m (fun _ => k))
  (at level 61, right associativity).

(** [await axios.get(url, { headers: { Authorization } })]. *)
Definition axios_get (w : World) (url authorization : string)
  : M Js.value :=
  emit (HttpGet url authorization) ;;;
  match http_get w url authorization with
  | Rejected => throw Js.AxiosError
  | Resolved data => ret data
  end.

(** [await axios.post(url, data, { headers: { Authorization, ... } })]. *)
Definition axios_post (w : World) (url : string) (data : StkRequest)
  (authorization : string) : M Js.value :=
  emit (HttpPost url data authorization) ;;;
  match http_post w url data authorization with
  | Rejected => throw Js.AxiosError
  | Resolved d => ret d
  end.

(** ** Express requests and responses *)

(** A response body: [res.json(v)] or the status text of
    [res.sendStatus]. *)
Inductive body : Type :=
| Json (v : Js.value)
| Text (s : string).

Record Response : Type := {
  status : Z;
  payload : body
}.

(** The request as the handlers see it: the parsed body and the
    [accessToken] property that [attachAccessToken] adds. *)
Record Request : Type := {
  req_body : Js.value;
  accessToken : Js.value
}.

(** A middleware either answers or calls [next()]. *)
Inductive step : Type :=
| Respond (r : Response)
| Next (req : Request).

(** What the client gets from a route: a response, or none when an
    async handler rejects outside its own [try]. *)
Inductive reply : Type :=
| Replied (r : Response)
| Unhandled (e : Js.exn).

Definition json (code : Z) (fields : list (string * Js.value)) : Response :=
  {| status := code; payload := Json (Js.Obj fields) |}.

(** [res.sendStatus(code)]: the status and its standard message as the
    body, or the code in digits when it has none. *)
Definition sendStatus (code : Z) : Response :=
  {| status := code;
     payload :=
       Text (if code =? 200 then "OK"
             else if code =? 500 then "Internal Server Error"
             else Js.number_to_string (Js.Dec code 0)) |}.

(** ** [src/app.js] *)

Definition token_url : string :=
  "https://sandbox.safaricom.co.ke/oauth/v1/generate?grant_type=client_credentials".

Definition stkPushUrl : string :=
  "https://sandbox.safaricom.co.ke/mpesa/stkpush/v1/processrequest".

(** [!x] for an environment variable: unset or empty. *)
Definition env_missing (x : option string) : bool :=
  negb (Js.truthy (Js.of_env x)).

(** The [Authorization] header of the token request. *)
Definition basic_auth (consumer_key consumer_secret : string) : string :=
  "Basic " ++ Base64.encode (consumer_key ++ ":" ++ consumer_secret).

(** [getAccessToken] (lines 27-50).  The template literal is
    evaluated after the guard, so both variables are strings there. *)
Definition getAccessToken (w : World) : M Js.value :=
  let consumer_key := env w "CONSUMER_KEY" in
  let consumer_secret := env w "CONSUMER_SECRET" in
  if env_missing consumer_key || env_missing consumer_secret then
    throw (Js.Error "Missing M-Pesa credentials in environment variables")
  else
    k <- lift (Js.to_string (Js.of_env consumer_key)) ;;
    s <- lift (Js.to_string (Js.of_env consumer_secret)) ;;
    let auth := basic_auth k s in
    try_catch
      (data <- axios_get w token_url auth ;;
       lift (Js.get data "access_token"))
      (fun _ => throw (Js.Error "Failed to get access token")).

(** [attachAccessToken] (lines 53-61). *)
Definition attachAccessToken (w : World) (req : Request) : M step :=
  try_catch
    (token <- getAccessToken w ;;
     ret (Next {| req_body := req_body req; accessToken := token |}))
    (fun _ =>
       ret (Respond (json 500
         [("error", Js.Str "Failed to authenticate with M-Pesa API")]))).

(** [/^254\d{9}$/.test(s)]: ["254"] and nine ASCII digits, nothing
    before or after. *)
Definition phone_pattern (s : string) : bool :=
  match Js.strip_prefix "254" s with
  | Some r => Str.all Str.is_digit r && (String.length r =? 9)%nat
  | None => false
  end.

(** [validateStkPushRequest] (lines 64-88).  [isNaN(amount)] and
    [amount <= 0] both convert [amount] with ToNumber. *)
Definition validateStkPushRequest (req : Request) : M step :=
  phoneNumber <- lift (Js.get (req_body req) "phoneNumber") ;;
  amount <- lift (Js.get (req_body req) "amount") ;;
  if negb (Js.truthy phoneNumber) || negb (Js.truthy amount) then
    ret (Respond (json 400
      [("error", Js.Str "Phone number and payable amount are required")]))
  else
    s <- lift (Js.to_string phoneNumber) ;;
    if negb (phone_pattern s) then
      ret (Respond (json 400
        [("error", Js.Str "Invalid phone number format. Use 254XXXXXXXXX")]))
    else
      n <- lift (Js.to_number amount) ;;
      if Js.is_nan n || Js.le_zero n then
        ret (Respond (json 400
          [("error", Js.Str "Invalid amount. Must be a positive number")]))
      else
        ret (Next req).

(** [Buffer.from(businessShortCode + passkey + timestamp)
      .toString("base64")] (lines 147-149). *)
Definition password_of (businessShortCode passkey : Js.value)
  (timestamp : string) : Js.result string :=
  Js.bind (Js.plus businessShortCode passkey) (fun sp =>
  Js.bind (Js.plus sp (Js.Str timestamp)) (fun spt =>
  Js.bind (Js.buffer_from spt) (fun bytes =>
  Js.Ok (Base64.encode bytes)))).

(** The [/stkpush] handler (lines 136-197), which runs after the two
    middlewares.  The body of [if (response.data.CheckoutRequestID)]
    is commented out in the source (lines 175-181): the condition is
    evaluated and nothing is stored. *)
Definition stkpush_handler (w : World) (req : Request) : M Response :=
  phoneNumber <- lift (Js.get (req_body req) "phoneNumber") ;;
  amount <- lift (Js.get (req_body req) "amount") ;;
  accountReference <- lift (Js.get (req_body req) "accountReference") ;;
  transactionDesc <- lift (Js.get (req_body req) "transactionDesc") ;;
  try_catch
    (let timestamp := format_YYYYMMDDHHmmss (clock w) in
     let businessShortCode := Js.of_env (env w "BUSINESSSHORTCODE") in
     let passkey := Js.of_env (env w "PASSKEY") in
     password <- lift (password_of businessShortCode passkey timestamp) ;;
     let requestData :=
       {| BusinessShortCode := businessShortCode;
          Password := password;
          Timestamp := timestamp;
          TransactionType := "CustomerPayBillOnline";
          Amount := amount;
          PartyA := phoneNumber;
          PartyB := businessShortCode;
          PhoneNumber := phoneNumber;
          CallBackURL := Js.of_env (env w "CALLBACKURI");
          AccountReference := accountReference;
          TransactionDesc := transactionDesc |} in
     bearer <- lift (Js.to_string (accessToken req)) ;;
     data <- axios_post w stkPushUrl requestData ("Bearer " ++ bearer) ;;
     checkoutRequestID <- lift (Js.get data "CheckoutRequestID") ;;
     (if Js.truthy checkoutRequestID then ret tt else ret tt) ;;;
     ret (json 200
       [("success", Js.Bool true);
        ("message",
          Js.Str "STK push sent successfully. Please check your phone.");
        ("data", data)]))
    (fun _ =>
       ret (json 500
         [("success", Js.Bool false);
          ("error", Js.Str "Failed to process STK push request")])).

(** The error-handling middleware (lines 288-291), which Express calls
    when a synchronous middleware throws. *)
Definition error_middleware (e : Js.exn) : Response :=
  json 500 [("error", Js.Str "Internal server error")].

(** [app.post("/stkpush", validateStkPushRequest, attachAccessToken,
    handler)] (line 136). *)
Definition stkpush_route (w : World) (request_body : Js.value) (st : State)
  : reply * State :=
  let req := {| req_body := request_body; accessToken := Js.Undefined |} in
  match validateStkPushRequest req st with
  | (Js.Throw e, st1) => (Replied (error_middleware e), st1)
  | (Js.Ok (Respond r), st1) => (Replied r, st1)
  | (Js.Ok (Next req1), st1) =>
      match attachAccessToken w req1 st1 with
      | (Js.Throw e, st2) => (Unhandled e, st2)
      | (Js.Ok (Respond r), st2) => (Replied r, st2)
      | (Js.Ok (Next req2), st2) =>
          match stkpush_handler w req2 st2 with
          | (Js.Throw e, st3) => (Unhandled e, st3)
          | (Js.Ok r, st3) => (Replied r, st3)
          end
      end
  end.

(** Assignments to the fields of [baseTransaction] that the scan
    writes. *)
Definition set_amount (v : Js.value) (t : Transaction) : Transaction :=
  {| checkoutRequestID := checkoutRequestID t;
     merchantRequestID := merchantRequestID t;
     resultCode := resultCode t;
     resultDesc := resultDesc t;
     mpesaReceiptNumber := mpesaReceiptNumber t;
     amount := v;
     transactionDate := transactionDate t;
     phoneNumber := phoneNumber t;
     userId := userId t |}.

Definition set_mpesaReceiptNumber (v : Js.value) (t : Transaction) : Transaction :=
  {| checkoutRequestID := checkoutRequestID t;
     merchantRequestID := merchantRequestID t;
     resultCode := resultCode t;
     resultDesc := resultDesc t;
     mpesaReceiptNumber := v;
     amount := amount t;
     transactionDate := transactionDate t;
     phoneNumber := phoneNumber t;
     userId := userId t |}.

Definition set_transactionDate (v : Js.value) (t : Transaction) : Transaction :=
  {| checkoutRequestID := checkoutRequestID t;
     merchantRequestID := merchantRequestID t;
     resultCode := resultCode t;
     resultDesc := resultDesc t;
     mpesaReceiptNumber := mpesaReceiptNumber t;
     amount := amount t;
     transactionDate := v;
     phoneNumber := phoneNumber t;
     userId := userId t |}.

Definition set_phoneNumber (v : Js.value) (t : Transaction) : Transaction :=
  {| checkoutRequestID := checkoutRequestID t;
     merchantRequestID := merchantRequestID t;
     resultCode := resultCode t;
     resultDesc := resultDesc t;
     mpesaReceiptNumber := mpesaReceiptNumber t;
     amount := amount t;
     transactionDate := transactionDate t;
     phoneNumber := v;
     userId := userId t |}.

(** [if (item.Name === name) baseTransaction.field = item.Value;] *)
Definition assign_if (item : Js.value) (name : string)
  (set : Js.value -> Transaction -> Transaction) (t : Transaction)
  : Js.result Transaction :=
  Js.bind (Js.get item "Name") (fun n =>
    if Js.is_string name n then
      Js.bind (Js.get item "Value") (fun v => Js.Ok (set v t))
    else Js.Ok t).

(** One [forEach] callback of the metadata scan (lines 224-229). *)
Definition scan_item (t : Transaction) (item : Js.value)
  : Js.result Transaction :=
  Js.bind (assign_if item "Amount" set_amount t) (fun t1 =>
  Js.bind (assign_if item "MpesaReceiptNumber" set_mpesaReceiptNumber t1)
    (fun t2 =>
  Js.bind (assign_if item "TransactionDate" set_transactionDate t2)
    (fun t3 =>
  assign_if item "PhoneNumber" set_phoneNumber t3))).

(** [Item.forEach(...)]: the items in order; the first callback that
    throws ends the scan. *)
Fixpoint scan_items (t : Transaction) (items : list Js.value)
  : Js.result Transaction :=
  match items with
  | [] => Js.Ok t
  | item :: rest => Js.bind (scan_item t item) (fun t' => scan_items t' rest)
  end.

(** The local variables of the callback handler when it reaches
    [res.sendStatus(200)]. *)
Record Reconciled : Type := {
  storedData : Js.value;
  baseTransaction : Transaction
}.

(** The [try] block of the [/stk_callback] handler up to its response
    (lines 202-248).  [new sdk.Databases(client)] makes no call, and
    the [createDocument] call and the [pendingTransactions.delete] are
    commented out in the source (lines 233-247). *)
Definition reconcile (request_body : Js.value) : M Reconciled :=
  envelope <- lift (Js.get request_body "Body") ;;
  callbackData <- lift (Js.get envelope "stkCallback") ;;
  checkoutRequestID <- lift (Js.get callbackData "CheckoutRequestID") ;;
  pending <- read_pending ;;
  let storedData := map_get pending checkoutRequestID in
  merchantRequestID <- lift (Js.get callbackData "MerchantRequestID") ;;
  resultCode <- lift (Js.get callbackData "ResultCode") ;;
  resultDesc <- lift (Js.get callbackData "ResultDesc") ;;
  let baseTransaction :=
    {| checkoutRequestID := checkoutRequestID;
       merchantRequestID := merchantRequestID;
       resultCode := resultCode;
       resultDesc := resultDesc;
       mpesaReceiptNumber := Js.Null;
       amount := Js.int 1;
       transactionDate := Js.Null;
       phoneNumber := Js.Null;
       userId := Js.Str "686c2e0f0027634a8e93" |} in
  metadata <- lift (Js.get callbackData "CallbackMetadata") ;;
  final <-
    (if Js.truthy metadata then
       item <- lift (Js.get metadata "Item") ;;
       items <- lift (Js.for_each_items item) ;;
       lift (scan_items baseTransaction items)
     else ret baseTransaction) ;;
  ret {| storedData := storedData; baseTransaction := final |}.

(** [app.post("/stk_callback", ...)] (lines 200-254). *)
Definition stk_callback_handler (request_body : Js.value) : M Response :=
  try_catch
    (reconcile request_body ;;; ret (sendStatus 200))
    (fun _ => ret (sendStatus 500)).

Definition stk_callback_route (request_body : Js.value) (st : State)
  : reply * State :=
  match stk_callback_handler request_body st with
  | (Js.Ok r, st') => (Replied r, st')
  | (Js.Throw e, st') => (Unhandled e, st')
  end.

(** ** The running server

    The two routes that mention [pendingTransactions], served one
    request after the other from the state of a fresh process. *)
Inductive Incoming : Type :=
| StkPush (w : World) (request_body : Js.value)
| StkCallback (request_body : Js.value).

Definition serve (st : State) (r : Incoming) : reply * State :=
  match r with
  | StkPush w b => stkpush_route w b st
  | StkCallback b => stk_callback_route b st
  end.

Fixpoint run (st : State) (rs : list Incoming) : State :=
  match rs with
  | [] => st
  | r :: rest => run (snd (serve st r)) rest
  end.

(** ** Sample inputs *)

Definition sample_env (name : string) : option string :=
  if String.eqb name "CONSUMER_KEY" then Some "key"
  else if String.eqb name "CONSUMER_SECRET" then Some "secret"
  else if String.eqb name "BUSINESSSHORTCODE" then Some "174379"
  else if String.eqb name "PASSKEY" then Some "passkey"
  else if String.eqb name "CALLBACKURI" then Some "https://example.test/stk_callback"
  else None.

Definition sample_clock : DateTime :=
  {| year := 2024; month := 1; day := 1;
     hour := 12; minute := 0; second := 5 |}%N.

Definition token_response : Js.value :=
  Js.Obj [("access_token", Js.Str "tok"); ("expires_in", Js.Str "3599")].

Definition push_response : Js.value :=
  Js.Obj [("MerchantRequestID", Js.Str "29115-34620561-1");
          ("CheckoutRequestID", Js.Str "ws_CO_191220191020363925");
          ("ResponseCode", Js.Str "0")].

(** A gateway that grants a token and accepts the push. *)
Definition sample_world : World :=
  {| env := sample_env;
     clock := sample_clock;
     http_get := fun _ _ => Resolved token_response;
     http_post := fun _ _ _ => Resolved push_response |}.

(** The same gateway, seen from a process without credentials. *)
Definition no_credentials_world : World :=
  {| env := fun _ => None;
     clock := sample_clock;
     http_get := fun _ _ => Resolved token_response;
     http_post := fun _ _ _ => Resolved push_response |}.

(** A gateway that grants a token and refuses the push. *)
Definition refusing_world : World :=
  {| env := sample_env;
     clock := sample_clock;
     http_get := fun _ _ => Resolved token_response;
     http_post := fun _ _ _ => Rejected |}.

Definition sample_body : Js.value :=
  Js.Obj [("phoneNumber", Js.Str "254712345678");
          ("amount", Js.int 100);
          ("accountReference", Js.Str "Uniconnect PAY");
          ("transactionDesc", Js.Str "Payment")].



Definition metadata_items : list Js.value :=
  [ Js.Obj [("Name", Js.Str "Amount"); ("Value", Js.int 500)];
    Js.Obj [("Name", Js.Str "MpesaReceiptNumber"); ("Value", Js.Str "ABC123")];
    Js.Obj [("Name", Js.Str "TransactionDate");
            ("Value", Js.int 20240101120000)];
    Js.Obj [("Name", Js.Str "PhoneNumber"); ("Value", Js.int 254712345678)] ].

Definition callback_of (stkCallback : Js.value) : Js.value :=
  Js.Obj [("Body", Js.Obj [("stkCallback", stkCallback)])].

Definition paid_callback : Js.value :=
  callback_of
    (Js.Obj [("MerchantRequestID", Js.Str "29115-34620561-1");
             ("CheckoutRequestID", Js.Str "ws_CO_191220191020363925");
             ("ResultCode", Js.int 0);
             ("ResultDesc",
               Js.Str "The service request is processed successfully.");
             ("CallbackMetadata", Js.Obj [("Item", Js.Arr metadata_items)])]).

Definition cancelled_callback : Js.value :=
  callback_of
    (Js.Obj [("MerchantRequestID", Js.Str "29115-34620561-1");
             ("CheckoutRequestID", Js.Str "ws_CO_191220191020363925");
             ("ResultCode", Js.int 1032);
             ("ResultDesc", Js.Str "Request cancelled by user")]).

(** A callback body without the [Body] envelope. *)
Definition empty_callback : Js.value := Js.Obj [].

(** ** Observations used by the statements *)

(** The events a handler added to the trace. *)
Definition emitted (before after : State) : list event :=
  List.skipn (List.length (trace before)) (trace after).

(** Both credentials are configured: set and not empty. *)
Definition credentials (w : World) : option (string * string) :=
  match env w "CONSUMER_KEY", env w "CONSUMER_SECRET" with
  | Some k, Some s =>
      if String.eqb k "" || String.eqb s "" then None else Some (k, s)
  | _, _ => None
  end.

(** What every push request carries: the time of the request as its
    [Timestamp], the configured short code, and a [Password] computed
    from that short code, the pass key and that same timestamp. *)
Definition push_request_ok (w : World) (e : event) : Prop :=
  match e with
  | HttpPost url data _ =>
      url = stkPushUrl /\
      Timestamp data = format_YYYYMMDDHHmmss (clock w) /\
      BusinessShortCode data = Js.of_env (env w "BUSINESSSHORTCODE") /\
      password_of (BusinessShortCode data) (Js.of_env (env w "PASSKEY"))
        (Timestamp data) = Js.Ok (Password data)
  | _ => False
  end.

(** The two bodies of the [/stkpush] handler's responses. *)
Definition push_sent (data : Js.value) : Response :=
  json 200
    [("success", Js.Bool true);
     ("message", Js.Str "STK push sent successfully. Please check your phone.");
     ("data", data)].

Definition push_failed : Response :=
  json 500
    [("success", Js.Bool false);
     ("error", Js.Str "Failed to process STK push request")].

(** The body of [attachAccessToken]'s response. *)
Definition auth_failed : Response :=
  json 500 [("error", Js.Str "Failed to authenticate with M-Pesa API")].

(** A computation that leaves the state as it found it. *)
Definition keeps_state {A : Type} (m : M A) : Prop :=
  forall st, snd (m st) = st.

(** A property of a JSON response. *)
Definition response_field (r : Response) (name : string) : Js.value :=
  match payload r with
  | Json (Js.Obj fields) => Js.lookup name fields
  | _ => Js.Undefined
  end.

Definition response_data (r : Response) : Js.value := response_field r "data".

(** The properties of a JSON response body, in order. *)
Definition response_keys (r : Response) : list string :=
  match payload r with
  | Json (Js.Obj fields) => List.map fst fields
  | _ => []
  end.

(** A value on which a property read does not throw. *)
Definition readable (v : Js.value) : bool :=
  match v with
  | Js.Undefined | Js.Null => false
  | _ => true
  end.

(** The callback bodies the handler reads to the end: [Body] and
    [Body.stkCallback] are neither [null] nor [undefined], and
    [CallbackMetadata] is falsy or has an array [Item] whose elements
    are neither [null] nor [undefined]. *)
Definition callback_readable (request_body : Js.value) : bool :=
  match Js.get request_body "Body" with
  | Js.Throw _ => false
  | Js.Ok envelope =>
      match Js.get envelope "stkCallback" with
      | Js.Throw _ => false
      | Js.Ok callbackData =>
          match Js.get callbackData "CallbackMetadata" with
          | Js.Throw _ => false
          | Js.Ok metadata =>
              if Js.truthy metadata then
                match Js.get metadata "Item" with
                | Js.Ok (Js.Arr items) => List.forallb readable items
                | _ => false
                end
              else true
          end
      end
  end.

(** ** The specification's statements that the source does not meet

    Each is given as a predicate of the input it speaks about. *)

(** A successful initiation leaves an entry for the correlation id of
    the gateway's response in [pendingTransactions]. *)
Definition registers_correlation_id (w : World) (request_body : Js.value)
  (st : State) : Prop :=
  forall r st' c,
    stkpush_route w request_body st = (Replied r, st') ->
    status r = 200 ->
    Js.get (response_data r) "CheckoutRequestID" = Js.Ok c ->
    Js.truthy c = true ->
    map_has (pendingTransactions st') c = true.

(** A call made right after a call that obtained a token, while that
    token has all of its lifetime left, returns the same token without
    any network call. *)
Definition reuses_cached_token (w : World) (st : State) : Prop :=
  forall token st1,
    getAccessToken w st = (Js.Ok token, st1) ->
    exists st2,
      getAccessToken w st1 = (Js.Ok token, st2) /\
      network_calls st2 = network_calls st1.

(** A processed callback writes a record to the Persistence Gateway. *)
Definition persists_record (request_body : Js.value) (st : State) : Prop :=
  exists document,
    In (CreateDocument document)
       (trace (snd (stk_callback_route request_body st))).

(** The callback endpoint acknowledges with 200. *)
Definition acknowledged (request_body : Js.value) (st : State) : Prop :=
  exists r st',
    stk_callback_route request_body st = (Replied r, st') /\ status r = 200.

(** An authentication failure is answered with 500 and a body
    [{ success: false, error }]. *)
Definition auth_failure_has_success_false (w : World)
  (request_body : Js.value) (st : State) : Prop :=
  forall e st1,
    getAccessToken w st = (Js.Throw e, st1) ->
    exists r st',
      stkpush_route w request_body st = (Replied r, st') /\
      status r = 500 /\
      response_keys r = ["success"; "error"].

(** A callback without metadata gives a record whose [amount] is
    [null]. *)
Definition amount_defaults_to_null (request_body : Js.value) (st : State)
  : Prop :=
  forall r st',
    reconcile request_body st = (Js.Ok r, st') ->
    amount (baseTransaction r) = Js.Null.

(** ** The other routes of [src/app.js] *)

(** [moment().format("YYYY-MM-DD HH:mm:ss")], for the years up to
    9999. *)
Definition format_YYYY_MM_DD_HH_mm_ss (t : DateTime) : string :=
  pad 4 (year t) ++ "-" ++ pad 2 (month t) ++ "-" ++ pad 2 (day t) ++ " "
    ++ pad 2 (hour t) ++ ":" ++ pad 2 (minute t) ++ ":" ++ pad 2 (second t).

(** [app.get("/")] (lines 91-97). *)
Definition root_route (w : World) : Response :=
  json 200
    [("message", Js.Str "M-Pesa Daraja API For KSU App");
     ("status", Js.Str "active");
     ("timestamp", Js.Str (format_YYYY_MM_DD_HH_mm_ss (clock w)))].

(** [app.get("/health")] (lines 280-285). *)
Definition health_route (w : World) : Response :=
  json 200
    [("status", Js.Str "healthy");
     ("timestamp", Js.Str (format_YYYY_MM_DD_HH_mm_ss (clock w)))].

(** The 404 handler (lines 294-296). *)
Definition not_found_handler : Response :=
  json 404 [("error", Js.Str "Endpoint not found")].

(** [error.message]: the message given to [new Error], or the wording
    the runtime chose for its own errors. *)
Definition error_message (runtime_message : Js.exn -> string) (e : Js.exn)
  : string :=
  match e with
  | Js.Error msg => msg
  | _ => runtime_message e
  end.

(** [app.get("/access_token")] (lines 100-107). *)
Definition access_token_route (runtime_message : Js.exn -> string)
  (w : World) (st : State) : reply * State :=
  match
    try_catch
      (token <- getAccessToken w ;;
       ret (json 200 [("access_token", token)]))
      (fun e =>
         ret (json 500
                [("error", Js.Str (error_message runtime_message e))]))
      st
  with
  | (Js.Ok r, st') => (Replied r, st')
  | (Js.Throw e, st') => (Unhandled e, st')
  end.

(** The body of the request of [/registerurl] and the call that
    carries it. *)
Record RegisterRequest : Type := {
  ShortCode : Js.value;
  ResponseType : string;
  ConfirmationURL : Js.value;
  ValidationURL : Js.value
}.

Record RegisterCall : Type := {
  register_url : string;
  register_data : RegisterRequest;
  register_authorization : string
}.

Definition registerUrl : string :=
  "https://sandbox.safaricom.co.ke/mpesa/c2b/v1/registerurl".

Definition register_failed : Response :=
  json 500 [("error", Js.Str "Failed to register URLs")].

(** The handler of [/registerurl] (lines 257-277): its response and
    the calls it made, [post] being the gateway's answer to the
    registration request. *)
Definition registerurl_handler (w : World)
  (post : string -> RegisterRequest -> string -> axios_result)
  (req : Request) : Response * list RegisterCall :=
  let data :=
    {| ShortCode := Js.of_env (env w "BUSINESSSHORTCODE");
       ResponseType := "Completed";
       ConfirmationURL := Js.of_env (env w "CONFIRMATIONURL");
       ValidationURL := Js.of_env (env w "VALIDATIONURL") |} in
  match Js.to_string (accessToken req) with
  | Js.Throw _ => (register_failed, [])
  | Js.Ok bearer =>
      let call :=
        {| register_url := registerUrl;
           register_data := data;
           register_authorization := "Bearer " ++ bearer |} in
      match post registerUrl data ("Bearer " ++ bearer) with
      | Rejected => (register_failed, [call])
      | Resolved d => ({| status := 200; payload := Json d |}, [call])
      end
  end.

(** [app.post("/registerurl", attachAccessToken, handler)]. *)
Definition registerurl_route (w : World)
  (post : string -> RegisterRequest -> string -> axios_result)
  (request_body : Js.value) (st : State)
  : reply * State * list RegisterCall :=
  match
    attachAccessToken w
      {| req_body := request_body; accessToken := Js.Undefined |} st
  with
  | (Js.Throw e, st1) => (Unhandled e, st1, [])
  | (Js.Ok (Respond r), st1) => (Replied r, st1, [])
  | (Js.Ok (Next req1), st1) =>
      let (r, calls) := registerurl_handler w post req1 in
      (Replied r, st1, calls)
  end.

(** ** The second variant of the application (lines 303-530)

    It reads [phone_number] and [payable_amount], fixes the account
    reference and the description of the push request, and has no
    [pendingTransactions]. *)

Module Legacy.

(** [validateStkPushRequest] (lines 358-382). *)
Definition validateStkPushRequest (req : Request) : M step :=
  phone_number <- lift (Js.get (req_body req) "phone_number") ;;
  payable_amount <- lift (Js.get (req_body req) "payable_amount") ;;
  if negb (Js.truthy phone_number) || negb (Js.truthy payable_amount) then
    ret (Respond (json 400
      [("error", Js.Str "Phone number and payable amount are required")]))
  else
    s <- lift (Js.to_string phone_number) ;;
    if negb (phone_pattern s) then
      ret (Respond (json 400
        [("error", Js.Str "Invalid phone number format. Use 254XXXXXXXXX")]))
    else
      n <- lift (Js.to_number payable_amount) ;;
      if Js.is_nan n || Js.le_zero n then
        ret (Respond (json 400
          [("error", Js.Str "Invalid amount. Must be a positive number")]))
      else
        ret (Next req).

(** The [/stkpush] handler (lines 404-452). *)
Definition stkpush_handler (w : World) (req : Request) : M Response :=
  phone_number <- lift (Js.get (req_body req) "phone_number") ;;
  payable_amount <- lift (Js.get (req_body req) "payable_amount") ;;
  try_catch
    (let timestamp := format_YYYYMMDDHHmmss (clock w) in
     let businessShortCode := Js.of_env (env w "BUSINESSSHORTCODE") in
     let passkey := Js.of_env (env w "PASSKEY") in
     password <- lift (password_of businessShortCode passkey timestamp) ;;
     let requestData :=
       {| BusinessShortCode := businessShortCode;
          Password := password;
          Timestamp := timestamp;
          TransactionType := "CustomerPayBillOnline";
          Amount := payable_amount;
          PartyA := phone_number;
          PartyB := businessShortCode;
          PhoneNumber := phone_number;
          CallBackURL := Js.of_env (env w "CALLBACKURI");
          AccountReference := Js.Str "Uniconnect PAY";
          TransactionDesc := Js.Str "Payment for uniconnect services" |} in
     bearer <- lift (Js.to_string (accessToken req)) ;;
     data <- axios_post w stkPushUrl requestData ("Bearer " ++ bearer) ;;
     ret (json 200
       [("success", Js.Bool true);
        ("message",
          Js.Str "STK push sent successfully. Please check your phone.");
        ("data", data)]))
    (fun _ =>
       ret (json 500
         [("success", Js.Bool false);
          ("error", Js.Str "Failed to process STK push request")])).

(** [app.post("/stkpush", validateStkPushRequest, attachAccessToken,
    handler)] (line 404). *)
Definition stkpush_route (w : World) (request_body : Js.value) (st : State)
  : reply * State :=
  let req := {| req_body := request_body; accessToken := Js.Undefined |} in
  match validateStkPushRequest req st with
  | (Js.Throw e, st1) => (Replied (error_middleware e), st1)
  | (Js.Ok (Respond r), st1) => (Replied r, st1)
  | (Js.Ok (Next req1), st1) =>
      match attachAccessToken w req1 st1 with
      | (Js.Throw e, st2) => (Unhandled e, st2)
      | (Js.Ok (Respond r), st2) => (Replied r, st2)
      | (Js.Ok (Next req2), st2) =>
          match stkpush_handler w req2 st2 with
          | (Js.Throw e, st3) => (Unhandled e, st3)
          | (Js.Ok r, st3) => (Replied r, st3)
          end
      end
  end.

End Legacy.

(** ** Further observations *)

(** The value the metadata scan leaves in a field: the [Value] of the
    last item whose [Name] is the field's name, or the value the field
    had. *)
Fixpoint last_value (name : string) (items : list Js.value)
  (default : Js.value) : Js.value :=
  match items with
  | [] => default
  | item :: rest =>
      last_value name rest
        match Js.get item "Name", Js.get item "Value" with
        | Js.Ok n, Js.Ok v => if Js.is_string name n then v else default
        | _, _ => default
        end
  end.

Definition is_get (e : event) : bool :=
  match e with
  | HttpGet _ _ => true
  | _ => false
  end.

Definition is_post (e : event) : bool :=
  match e with
  | HttpPost _ _ _ => true
  | _ => false
  end.

(** The numbers of token requests and of push requests in a trace. *)
Definition token_requests (l : list event) : nat :=
  List.length (List.filter is_get l).

Definition push_requests (l : list event) : nat :=
  List.length (List.filter is_post l).

(** The request body as a push request takes it over: the caller's
    phone number as payer and as phone number, the caller's amount,
    reference and description, the short code as payee. *)
Definition carries_request (w : World) (request_body : Js.value)
  (data : StkRequest) : Prop :=
  Js.get request_body "phoneNumber" = Js.Ok (PartyA data) /\
  PhoneNumber data = PartyA data /\
  Js.get request_body "amount" = Js.Ok (Amount data) /\
  Js.get request_body "accountReference" = Js.Ok (AccountReference data) /\
  Js.get request_body "transactionDesc" = Js.Ok (TransactionDesc data) /\
  PartyB data = BusinessShortCode data /\
  BusinessShortCode data = Js.of_env (env w "BUSINESSSHORTCODE") /\
  CallBackURL data = Js.of_env (env w "CALLBACKURI") /\
  TransactionType data = "CustomerPayBillOnline".

(** A request body whose phone number and amount pass the checks of
    the validation middleware. *)
Definition valid_fields (phone amt : Js.value) : Prop :=
  exists s n,
    Js.to_string phone = Js.Ok s /\ phone_pattern s = true /\
    Js.to_number amt = Js.Ok n /\
    Js.is_nan n = false /\ Js.le_zero n = false.

(** A gateway whose token answers lack the [access_token] property. *)
Definition tokenless_world : World :=
  {| env := sample_env;
     clock := sample_clock;
     http_get := fun _ _ => Resolved (Js.Obj [("expires_in", Js.Str "3599")]);
     http_post := fun _ _ _ => Resolved push_response |}.

(** A process with the consumer credentials and no push secrets. *)
Definition no_secrets_world : World :=
  {| env := fun name =>
              if String.eqb name "CONSUMER_KEY" then Some "key"
              else if String.eqb name "CONSUMER_SECRET" then Some "secret"
              else None;
     clock := sample_clock;
     http_get := fun _ _ => Resolved token_response;
     http_post := fun _ _ _ => Resolved push_response |}.

(** A gateway that answers the push with [null]. *)
Definition null_answer_world : World :=
  {| env := sample_env;
     clock := sample_clock;
     http_get := fun _ _ => Resolved token_response;
     http_post := fun _ _ _ => Resolved Js.Null |}.

Definition zero_amount_body : Js.value :=
  Js.Obj [("phoneNumber", Js.Str "254712345678"); ("amount", Js.int 0)].

Definition legacy_body : Js.value :=
  Js.Obj [("phone_number", Js.Str "254712345678");
          ("payable_amount", Js.int 100);
          ("accountReference", Js.Str "Order 17")].

(** A metadata list that names the amount twice and has an item
    without value. *)
Definition repeated_items : list Js.value :=
  [ Js.Obj [("Name", Js.Str "Amount"); ("Value", Js.int 500)];
    Js.Obj [("Name", Js.Str "Balance")];
    Js.Obj [("Name", Js.Str "PhoneNumber")];
    Js.Obj [("Name", Js.Str "Amount"); ("Value", Js.int 700)] ].

(** [b.k] for a body that can be destructured. *)
Definition field (b : Js.value) (k : string) : Js.value :=
  match Js.get b k with
  | Js.Ok v => v
  | Js.Throw _ => Js.Undefined
  end.

(** What [businessShortCode + passkey] reads as in the password: the
    two secrets in a row, the word [undefined] for the one that is not
    set, and [NaN] when neither is. *)
Definition secrets_text (shortCode passKey : option string) : string :=
  match shortCode, passKey with
  | Some sc, Some pk => sc ++ pk
  | Some sc, None => sc ++ "undefined"
  | None, Some pk => "undefined" ++ pk
  | None, None => "NaN"
  end.

(** The push request of a world and a request body. *)
Definition push_request_of (w : World) (b : Js.value) : StkRequest :=
  {| BusinessShortCode := Js.of_env (env w "BUSINESSSHORTCODE");
     Password :=
       Base64.encode
         (secrets_text (env w "BUSINESSSHORTCODE") (env w "PASSKEY")
            ++ format_YYYYMMDDHHmmss (clock w));
     Timestamp := format_YYYYMMDDHHmmss (clock w);
     TransactionType := "CustomerPayBillOnline";
     Amount := field b "amount";
     PartyA := field b "phoneNumber";
     PartyB := Js.of_env (env w "BUSINESSSHORTCODE");
     PhoneNumber := field b "phoneNumber";
     CallBackURL := Js.of_env (env w "CALLBACKURI");
     AccountReference := field b "accountReference";
     TransactionDesc := field b "transactionDesc" |}.

(** The answer of the [/stkpush] handler to the outcome of its push
    request. *)
Definition push_reply (a : axios_result) : Response :=
  match a with
  | Rejected => push_failed
  | Resolved data => if readable data then push_sent data else push_failed
  end.

(** ** The inverse of the base64 encoding

    The server never decodes; the decoder serves to show that the
    encoding loses nothing. *)

(** The position of a digit in the alphabet. *)
Fixpoint index_in (c : ascii) (alphabet : string) : N :=
  match alphabet with
  | EmptyString => 0
  | String d r => if Ascii.eqb c d then 0 else N.succ (index_in c r)
  end.

Definition base64_value (c : ascii) : N := index_in c Base64.alphabet.

Definition byte (n : N) : ascii := ascii_of_N (n mod 256).

Fixpoint base64_decode (s : string) : option string :=
  match s with
  | EmptyString => Some EmptyString
  | String c0 (String c1 (String c2 (String c3 r))) =>
      let v0 := base64_value c0 in
      let v1 := base64_value c1 in
      let v2 := base64_value c2 in
      let v3 := base64_value c3 in
      let x := byte (v0 * 4 + v1 / 16) in
      let y := byte ((v1 mod 16) * 16 + v2 / 4) in
      let z := byte ((v2 mod 4) * 64 + v3) in
      if Ascii.eqb c2 "=" then
        match r with
        | EmptyString => Some (String x EmptyString)
        | _ => None
        end
      else if Ascii.eqb c3 "=" then
        match r with
        | EmptyString => Some (String x (String y EmptyString))
        | _ => None
        end
      else
        match base64_decode r with
        | Some t => Some (String x (String y (String z t)))
        | None => None
        end
  | _ => None
  end%N.

(** The natural numbers below [k], and the strings of [width] ASCII
    digits. *)
Definition N_below (k : N) : list N :=
  List.map N.of_nat (List.seq 0 (N.to_nat k)).

Definition digits_of_width (width : nat) (s : string) : bool :=
  (String.length s =? width)%nat && Str.all Str.is_digit s.

(** A clock reading within the calendar's ranges. *)
Definition clock_in_range (t : DateTime) : Prop :=
  (year t <= 9999 /\ month t <= 12 /\ day t <= 31 /\
   hour t <= 23 /\ minute t <= 59 /\ second t <= 59)%N.

(** ** Regular expressions

    The fragment of the language of regular expressions that the phone
    pattern is written in, and [RegExp.prototype.test] on it, for a
    pattern without flags: [^] holds at the first position of the
    input only and [$] at its end only, and the match is tried at
    every position from the first.  The pattern's characters are
    ASCII, so a unit of the input is a byte here. *)

Inductive regexp : Type :=
| AssertStart
| AssertEnd
| Character (c : ascii)
| DigitClass
| Sequence (r1 r2 : regexp)
| Times (n : nat) (r : regexp).

(** A backtracking matcher: [k] is what remains to be matched, given
    whether the position is still the first one and the rest of the
    input. *)
Fixpoint regexp_match (r : regexp) (at_start : bool) (input : string)
  (k : bool -> string -> bool) : bool :=
  match r with
  | AssertStart => at_start && k at_start input
  | AssertEnd =>
      match input with
      | EmptyString => k at_start input
      | String _ _ => false
      end
  | Character c =>
      match input with
      | EmptyString => false
      | String x rest => Ascii.eqb c x && k false rest
      end
  | DigitClass =>
      match input with
      | EmptyString => false
      | String x rest => Str.is_digit x && k false rest
      end
  | Sequence r1 r2 =>
      regexp_match r1 at_start input
        (fun a rest => regexp_match r2 a rest k)
  | Times n r' =>
      (fix times (n : nat) (a : bool) (s : string) : bool :=
         match n with
         | O => k a s
         | S m => regexp_match r' a s (fun a' rest => times m a' rest)
         end) n at_start input
  end.

Fixpoint regexp_search (r : regexp) (at_start : bool) (input : string)
  : bool :=
  regexp_match r at_start input (fun _ _ => true)
  || match input with
     | EmptyString => false
     | String _ rest => regexp_search r false rest
     end.

Definition regexp_test (r : regexp) (input : string) : bool :=
  regexp_search r true input.

(** [/^254\d{9}$/] (line 74). *)
Definition phone_regexp : regexp :=
  Sequence AssertStart
    (Sequence (Character "2")
       (Sequence (Character "5")
          (Sequence (Character "4")
             (Sequence (Times 9 DigitClass) AssertEnd)))).

(** ** The validation claim as the specification states it *)




(** An amount too small for binary64: the Number it denotes is 0. *)
Definition tiny_amount_body : Js.value :=
  Js.Obj [("phoneNumber", Js.Str "254712345678"); ("amount", Js.Str "1e-400")].

(** * Properties *)

(** ** Strings and base64 *)

Example encode_Man : Base64.encode "Man" = "TWFu".
Proof. reflexivity. Qed.

Example encode_padding :
  Base64.encode "Ma" = "TWE=" /\ Base64.encode "M" = "TQ==".
Proof. split; reflexivity. Qed.

Example basic_auth_sample : basic_auth "key" "secret" = "Basic a2V5OnNlY3JldA==".
Proof. reflexivity. Qed.

Example timestamp_sample : format_YYYYMMDDHHmmss sample_clock = "20240101120005".
Proof. reflexivity. Qed.

Example phone_pattern_samples :
  phone_pattern "254712345678" = true /\
  phone_pattern "0712345678" = false /\
  phone_pattern "2547123456789" = false /\
  phone_pattern "25471234567a" = false /\
  phone_pattern " 254712345678" = false.
Proof. repeat split; reflexivity. Qed.

Example to_number_samples :
  Js.to_number (Js.Str " 10.5 ") = Js.Ok (Js.Dec 105 (-1)) /\
  Js.to_number (Js.Str "1e3") = Js.Ok (Js.Dec 1 3) /\
  Js.to_number (Js.Str "0x1F") = Js.Ok (Js.Dec 31 0) /\
  Js.to_number (Js.Str "abc") = Js.Ok Js.NaN /\
  Js.to_number (Js.Str "") = Js.Ok (Js.Dec 0 0) /\
  Js.to_number (Js.Arr [Js.Str "7"]) = Js.Ok (Js.Dec 7 0) /\
  Js.to_number (Js.Obj []) = Js.Ok Js.NaN /\
  Js.to_number (Js.Obj [("toString", Js.int 1)]) = Js.Throw Js.TypeError.
Proof. repeat split; reflexivity. Qed.

Example to_string_samples :
  Js.to_string (Js.int 254712345678) = Js.Ok "254712345678" /\
  Js.to_string (Js.Num (Js.Dec 105 (-1))) = Js.Ok "10.5" /\
  Js.to_string (Js.Num (Js.Dec 1 21)) = Js.Ok "1e+21" /\
  Js.to_string (Js.Num (Js.Dec 1 (-7))) = Js.Ok "1e-7" /\
  Js.to_string (Js.Arr [Js.int 1; Js.Null; Js.Str "a"]) = Js.Ok "1,,a" /\
  Js.to_string (Js.Obj []) = Js.Ok "[object Object]".
Proof. repeat split; reflexivity. Qed.

Lemma append_assoc (a b c : string) : (a ++ b) ++ c = a ++ b ++ c.
Proof.
  induction a as [|x a IH]; cbn; [reflexivity | now rewrite IH].
Qed.

(** Concatenating two strings and a third with [+] is concatenation,
    so the password of two configured secrets is the base64 of the
    three strings in a row. *)
Lemma password_of_strings (shortCode passKey timestamp : string) :
  password_of (Js.Str shortCode) (Js.Str passKey) timestamp
  = Js.Ok (Base64.encode (shortCode ++ passKey ++ timestamp)).
Proof.
  unfold password_of, Js.plus, Js.bind; cbn [Js.to_primitive Js.to_string Js.buffer_from].
  now rewrite append_assoc.
Qed.

(** ** The handlers and the state *)

Ltac unfold_monad :=
  unfold mbind, lift, ret, throw, try_catch, emit, read_pending in *.

Ltac case_split :=
  repeat match goal with
         | |- context [match ?x with _ => _ end] => destruct x eqn:?
         end.

(** Validation reads the request and nothing else. *)
Lemma validate_keeps_state (req : Request) (st : State) :
  snd (validateStkPushRequest req st) = st.
Proof.
  unfold validateStkPushRequest; unfold_monad.
  case_split; reflexivity.
Qed.

(** Validation passes the request on unchanged, and only when its body
    can be destructured. *)
Lemma validate_next (req req' : Request) (st st' : State) :
  validateStkPushRequest req st = (Js.Ok (Next req'), st') ->
  req' = req /\ st' = st /\ readable (req_body req) = true.
Proof.
  unfold validateStkPushRequest; unfold_monad.
  destruct (req_body req) eqn:Hb; cbn [Js.get];
    case_split; intros H; inversion H; subst; auto.
Qed.

(** A validation response is a 400 with an [error] message. *)
Lemma validate_respond (req : Request) (st st' : State) (r : Response) :
  validateStkPushRequest req st = (Js.Ok (Respond r), st') ->
  st' = st /\ exists msg, r = json 400 [("error", Js.Str msg)].
Proof.
  unfold validateStkPushRequest; unfold_monad.
  case_split; intros H; inversion H; subst; eauto.
Qed.

(** What a call of [getAccessToken] does to the state: the map is left
    alone, and the trace gains one token request when both credentials
    are configured and nothing otherwise. *)
Lemma getAccessToken_state (w : World) (st : State) :
  pendingTransactions (snd (getAccessToken w st)) = pendingTransactions st /\
  trace (snd (getAccessToken w st))
  = (trace st ++
      match credentials w with
      | Some (k, s) => [HttpGet token_url (basic_auth k s)]
      | None => []
      end)%list.
Proof.
  unfold getAccessToken, credentials, env_missing.
  destruct (env w "CONSUMER_KEY") as [k|], (env w "CONSUMER_SECRET") as [s|];
    cbn [Js.of_env Js.truthy negb orb]; unfold_monad; cbn [snd];
    try (split; [reflexivity | now rewrite app_nil_r]).
  - rewrite !negb_involutive.
    destruct (String.eqb k ""), (String.eqb s ""); cbn [orb snd Js.to_string];
      try (split; [reflexivity | now rewrite app_nil_r]).
    unfold axios_get; unfold_monad.
    destruct (http_get w token_url (basic_auth k s)); cbn.
    + split; reflexivity.
    + destruct (Js.get data "access_token"); cbn; split; reflexivity.
  - rewrite negb_involutive.
    destruct (String.eqb k ""); cbn; split; try reflexivity;
      now rewrite app_nil_r.
Qed.

(** Without both credentials [getAccessToken] throws before any
    request. *)
Lemma getAccessToken_missing (w : World) (st : State) :
  credentials w = None ->
  getAccessToken w st
  = (Js.Throw (Js.Error "Missing M-Pesa credentials in environment variables"),
     st).
Proof.
  unfold getAccessToken, credentials, env_missing.
  destruct (env w "CONSUMER_KEY") as [k|], (env w "CONSUMER_SECRET") as [s|];
    cbn [Js.of_env Js.truthy negb orb]; try reflexivity.
  - rewrite !negb_involutive.
    destruct (String.eqb k ""), (String.eqb s ""); cbn [orb];
      try reflexivity; discriminate.
  - rewrite negb_involutive. destruct (String.eqb k ""); reflexivity.
Qed.

(** With both credentials the result is the [access_token] property of
    the gateway's answer, or the error of the [catch]. *)
Lemma getAccessToken_configured (w : World) (st : State) (k s : string) :
  credentials w = Some (k, s) ->
  getAccessToken w st
  = (match http_get w token_url (basic_auth k s) with
     | Resolved data =>
         match Js.get data "access_token" with
         | Js.Ok token => Js.Ok token
         | Js.Throw _ => Js.Throw (Js.Error "Failed to get access token")
         end
     | Rejected => Js.Throw (Js.Error "Failed to get access token")
     end,
     {| pendingTransactions := pendingTransactions st;
        trace := (trace st ++ [HttpGet token_url (basic_auth k s)])%list |}).
Proof.
  unfold getAccessToken, credentials, env_missing.
  destruct (env w "CONSUMER_KEY") as [k'|], (env w "CONSUMER_SECRET") as [s'|];
    try discriminate.
  cbn [Js.of_env Js.truthy negb orb]. rewrite !negb_involutive.
  destruct (String.eqb k' ""), (String.eqb s' ""); cbn [orb];
    try discriminate.
  intros H; inversion H; subst.
  unfold axios_get; unfold_monad; cbn [Js.to_string].
  destruct (http_get w token_url (basic_auth k s)); cbn; [reflexivity|].
  destruct (Js.get data "access_token"); reflexivity.
Qed.

(** [attachAccessToken] never throws: it passes the request on with
    the token, or answers 500 with an [error] message only. *)
Lemma attachAccessToken_cases (w : World) (req : Request) (st : State) :
  attachAccessToken w req st
  = match getAccessToken w st with
    | (Js.Ok token, st') =>
        (Js.Ok (Next {| req_body := req_body req; accessToken := token |}),
         st')
    | (Js.Throw _, st') =>
        (Js.Ok (Respond (json 500
           [("error", Js.Str "Failed to authenticate with M-Pesa API")])),
         st')
    end.
Proof.
  unfold attachAccessToken; unfold_monad.
  destruct (getAccessToken w st) as [[token|e] st']; reflexivity.
Qed.

Lemma emitted_app (st st' : State) (l : list event) :
  trace st' = (trace st ++ l)%list -> emitted st st' = l.
Proof.
  intros H. unfold emitted. rewrite H.
  rewrite List.skipn_app, List.skipn_all, Nat.sub_diag. reflexivity.
Qed.

(** The handler of [/stkpush] on a request that passed the two
    middlewares: it always answers, leaves the map alone, and makes at
    most one call, a push request; it answers 200 with the gateway's
    data exactly when that call resolved with data it could read. *)
Lemma stkpush_handler_spec (w : World) (req : Request) (st : State) :
  readable (req_body req) = true ->
  exists r st' posts,
    stkpush_handler w req st = (Js.Ok r, st') /\
    pendingTransactions st' = pendingTransactions st /\
    trace st' = (trace st ++ posts)%list /\
    (forall e, In e posts -> push_request_ok w e) /\
    (r = push_failed /\ List.length posts <= 1 \/
     exists data request authorization,
       posts = [HttpPost stkPushUrl request authorization] /\
       http_post w stkPushUrl request authorization = Resolved data /\
       r = push_sent data)%nat.
Proof.
  intros Hb. unfold stkpush_handler.
  assert (Hget : forall k, exists v, Js.get (req_body req) k = Js.Ok v).
  { intros k. destruct (req_body req); try discriminate; cbn; eauto. }
  destruct (Hget "phoneNumber") as [p ->], (Hget "amount") as [a ->],
    (Hget "accountReference") as [ar ->], (Hget "transactionDesc") as [td ->].
  unfold_monad.
  destruct (password_of _ _ _) as [password|] eqn:Hpw.
  2:{ exists push_failed, st, []. rewrite app_nil_r.
      split; [reflexivity|]. split; [reflexivity|]. split; [reflexivity|].
      split; [intros ? []| left; split; cbn; auto]. }
  destruct (Js.to_string (accessToken req)) as [bearer|].
  2:{ exists push_failed, st, []. rewrite app_nil_r.
      split; [reflexivity|]. split; [reflexivity|]. split; [reflexivity|].
      split; [intros ? []| left; split; cbn; auto]. }
  unfold axios_post; unfold_monad.
  match goal with
  | |- context [http_post w stkPushUrl ?d ?a] =>
      set (request := d); set (authorization := a)
  end.
  assert (Hok : forall e, In e [HttpPost stkPushUrl request authorization] ->
                          push_request_ok w e).
  { intros e [<-|[]]. cbn. repeat split; auto. }
  destruct (http_post w stkPushUrl request authorization) as [|data] eqn:Hpost.
  { eexists push_failed, _, _. cbn.
    split; [reflexivity|]. split; [reflexivity|]. split; [reflexivity|].
    split; [exact Hok | left; split; cbn; auto]. }
  destruct (Js.get data "CheckoutRequestID") as [c|] eqn:Hc.
  2:{ eexists push_failed, _, _. cbn.
      split; [reflexivity|]. split; [reflexivity|]. split; [reflexivity|].
      split; [exact Hok | left; split; cbn; auto]. }
  exists (push_sent data). eexists _, _.
  destruct (Js.truthy c); cbn;
    (split; [reflexivity|]; split; [reflexivity|]; split; [reflexivity|];
     split; [exact Hok | right]; exists data, request, authorization;
     split; [reflexivity | split; [exact Hpost | reflexivity]]).
Qed.

(** The handler sends its push request whenever the secrets are
    configured and the token has a string form. *)
Lemma stkpush_handler_posts (w : World) (req : Request) (st : State)
  (shortCode passKey bearer : string) :
  readable (req_body req) = true ->
  env w "BUSINESSSHORTCODE" = Some shortCode ->
  env w "PASSKEY" = Some passKey ->
  Js.to_string (accessToken req) = Js.Ok bearer ->
  exists request,
    trace (snd (stkpush_handler w req st))
    = (trace st ++ [HttpPost stkPushUrl request ("Bearer " ++ bearer)])%list /\
    Password request
    = Base64.encode (shortCode ++ passKey ++ Timestamp request).
Proof.
  intros Hb Hsc Hpk Htok. unfold stkpush_handler.
  assert (Hget : forall k, exists v, Js.get (req_body req) k = Js.Ok v).
  { intros k. destruct (req_body req); try discriminate; cbn; eauto. }
  destruct (Hget "phoneNumber") as [p ->], (Hget "amount") as [a ->],
    (Hget "accountReference") as [ar ->], (Hget "transactionDesc") as [td ->].
  rewrite Hsc, Hpk. cbn [Js.of_env]. rewrite password_of_strings, Htok.
  unfold axios_post; unfold_monad.
  match goal with
  | |- context [http_post w stkPushUrl ?d ?a] => exists d
  end.
  cbn [Password Timestamp]. split; [|reflexivity].
  destruct (http_post w stkPushUrl _ _) as [|data]; [reflexivity|].
  destruct (Js.get data "CheckoutRequestID") as [c|]; [|reflexivity].
  destruct (Js.truthy c); reflexivity.
Qed.

(** The route, middleware by middleware. *)
Lemma stkpush_route_cases (w : World) (b : Js.value) (st : State) :
  match
    validateStkPushRequest {| req_body := b; accessToken := Js.Undefined |} st
  with
  | (Js.Throw e, _) =>
      stkpush_route w b st = (Replied (error_middleware e), st)
  | (Js.Ok (Respond r), _) =>
      stkpush_route w b st = (Replied r, st) /\
      exists msg, r = json 400 [("error", Js.Str msg)]
  | (Js.Ok (Next _), _) =>
      readable b = true /\
      match getAccessToken w st with
      | (Js.Throw _, st1) =>
          stkpush_route w b st = (Replied auth_failed, st1)
      | (Js.Ok token, st1) =>
          stkpush_route w b st
          = (match
               fst (stkpush_handler w
                      {| req_body := b; accessToken := token |} st1)
             with
             | Js.Ok r => Replied r
             | Js.Throw e => Unhandled e
             end,
             snd (stkpush_handler w
                    {| req_body := b; accessToken := token |} st1))
      end
  end.
Proof.
  unfold stkpush_route.
  set (req := {| req_body := b; accessToken := Js.Undefined |}).
  destruct (validateStkPushRequest req st) as [[[r|req']|e] st0] eqn:Hv.
  - apply validate_respond in Hv as [-> Hr]. auto.
  - apply validate_next in Hv as (-> & -> & Hb). split; [exact Hb|].
    rewrite attachAccessToken_cases.
    destruct (getAccessToken w st) as [[token|e] st1]; cbn [req_body req].
    + destruct (stkpush_handler w _ st1) as [[r|e] st2]; reflexivity.
    + reflexivity.
  - pose proof (validate_keeps_state req st) as Hs. rewrite Hv in Hs.
    cbn in Hs. now subst.
Qed.

(** The route always answers. *)
Lemma stkpush_route_replies (w : World) (b : Js.value) (st : State) :
  exists r st', stkpush_route w b st = (Replied r, st').
Proof.
  pose proof (stkpush_route_cases w b st) as H.
  destruct (validateStkPushRequest _ st) as [[[r|req']|e] st0].
  - destruct H as [H _]. eauto.
  - destruct H as [Hb H].
    destruct (getAccessToken w st) as [[token|e] st1]; [|eauto].
    destruct (stkpush_handler_spec w {| req_body := b; accessToken := token |}
                st1 Hb) as (r & st2 & posts & Hh & _).
    rewrite Hh in H. cbn in H. eauto.
  - eauto.
Qed.

(** What a request to [/stkpush] does to the state: the map is left
    alone and the trace gains network calls only. *)
Lemma stkpush_route_state (w : World) (b : Js.value) (st : State) :
  exists events,
    pendingTransactions (snd (stkpush_route w b st)) = pendingTransactions st /\
    trace (snd (stkpush_route w b st)) = (trace st ++ events)%list /\
    List.forallb is_network events = true.
Proof.
  pose proof (stkpush_route_cases w b st) as H.
  destruct (validateStkPushRequest _ st) as [[[r|req']|e] st0].
  - destruct H as [-> _]. exists []. rewrite app_nil_r. auto.
  - destruct H as [Hb H].
    destruct (getAccessToken_state w st) as [Hp Ht].
    assert (Hnet : List.forallb is_network
                     match credentials w with
                     | Some (k, s) => [HttpGet token_url (basic_auth k s)]
                     | None => []
                     end = true)
      by (destruct (credentials w) as [[k s]|]; reflexivity).
    destruct (getAccessToken w st) as [[token|e] st1]; cbn [snd] in Hp, Ht.
    + destruct (stkpush_handler_spec w {| req_body := b; accessToken := token |}
                  st1 Hb) as (r & st2 & posts & Hh & Hp2 & Ht2 & Hok & _).
      rewrite H, Hh. cbn [fst snd].
      eexists. split; [congruence|]. split.
      * rewrite Ht2, Ht, <- app_assoc. reflexivity.
      * rewrite List.forallb_app, Hnet. cbn [andb].
        apply List.forallb_forall. intros e He. apply Hok in He.
        destruct e; cbn in *; tauto.
    + rewrite H. cbn [snd]. eauto.
  - rewrite H. exists []. rewrite app_nil_r. auto.
Qed.

(** ** The callback handler *)

Lemma get_readable (v : Js.value) (k : string) :
  readable v = true -> exists x, Js.get v k = Js.Ok x.
Proof. destruct v; try discriminate; cbn; eauto. Qed.

Lemma get_unreadable (v : Js.value) (k : string) :
  readable v = false -> Js.get v k = Js.Throw Js.TypeError.
Proof. destruct v; try discriminate; reflexivity. Qed.

(** An item that can be read is scanned without exception, and the
    scan writes none of the fields it does not name. *)
Lemma scan_item_readable (t : Transaction) (item : Js.value) :
  readable item = true ->
  exists t',
    scan_item t item = Js.Ok t' /\
    userId t' = userId t /\
    checkoutRequestID t' = checkoutRequestID t /\
    merchantRequestID t' = merchantRequestID t /\
    resultCode t' = resultCode t /\
    resultDesc t' = resultDesc t.
Proof.
  intros Hr.
  destruct (get_readable item "Name" Hr) as [name Hn].
  destruct (get_readable item "Value" Hr) as [v Hv].
  unfold scan_item, assign_if. rewrite Hn, Hv. cbn [Js.bind].
  destruct (Js.is_string "Amount" name); cbn [Js.bind];
    destruct (Js.is_string "MpesaReceiptNumber" name); cbn [Js.bind];
    destruct (Js.is_string "TransactionDate" name); cbn [Js.bind];
    destruct (Js.is_string "PhoneNumber" name); cbn [Js.bind];
    eexists; (split; [reflexivity|]); cbn; auto.
Qed.

Lemma scan_item_unreadable (t : Transaction) (item : Js.value) :
  readable item = false -> scan_item t item = Js.Throw Js.TypeError.
Proof.
  intros Hr. unfold scan_item, assign_if.
  now rewrite (get_unreadable item "Name" Hr).
Qed.

Lemma scan_items_readable (items : list Js.value) (t : Transaction) :
  List.forallb readable items = true ->
  exists t',
    scan_items t items = Js.Ok t' /\
    userId t' = userId t /\
    checkoutRequestID t' = checkoutRequestID t /\
    merchantRequestID t' = merchantRequestID t /\
    resultCode t' = resultCode t /\
    resultDesc t' = resultDesc t.
Proof.
  revert t. induction items as [|item rest IH]; intros t H; cbn in *.
  - exists t. repeat split; reflexivity.
  - apply andb_true_iff in H as [Hi Hrest].
    destruct (scan_item_readable t item Hi) as (t1 & -> & E1).
    cbn [Js.bind].
    destruct (IH t1 Hrest) as (t2 & -> & E2).
    exists t2. split; [reflexivity|].
    decompose [and] E1; decompose [and] E2. repeat split; congruence.
Qed.

Lemma scan_items_unreadable (items : list Js.value) (t : Transaction) :
  List.forallb readable items = false ->
  scan_items t items = Js.Throw Js.TypeError.
Proof.
  revert t. induction items as [|item rest IH]; intros t H; cbn in *.
  - discriminate.
  - destruct (readable item) eqn:Hi; cbn in H.
    + destruct (scan_item_readable t item Hi) as (t1 & -> & _).
      cbn [Js.bind]. auto.
    + now rewrite (scan_item_unreadable t item Hi).
Qed.

Lemma keeps_ret {A : Type} (a : A) : keeps_state (ret a).
Proof. intros st. reflexivity. Qed.

Lemma keeps_lift {A : Type} (r : Js.result A) : keeps_state (lift r).
Proof. intros st. reflexivity. Qed.

Lemma keeps_read_pending : keeps_state read_pending.
Proof. intros st. reflexivity. Qed.

Lemma keeps_bind {A B : Type} (m : M A) (f : A -> M B) :
  keeps_state m -> (forall a, keeps_state (f a)) -> keeps_state (mbind m f).
Proof.
  intros Hm Hf st. unfold mbind. specialize (Hm st).
  destruct (m st) as [[a|e] st']; cbn in Hm; subst; [apply Hf | reflexivity].
Qed.

(** Reading a callback touches neither the map nor the trace. *)
Lemma reconcile_keeps_state (b : Js.value) : keeps_state (reconcile b).
Proof.
  unfold reconcile.
  repeat (apply keeps_bind; [| intros ?]);
    try apply keeps_lift; try apply keeps_read_pending; try apply keeps_ret.
  destruct (Js.truthy _); [| apply keeps_ret].
  repeat (apply keeps_bind; [| intros ?]); apply keeps_lift.
Qed.

(** A callback that can be read to the end gives a record: the four
    identification fields are those of the payload, [userId] is the
    constant of the source, and [storedData] is what the map holds for
    the correlation id. *)
Lemma reconcile_readable (b : Js.value) (st : State) :
  callback_readable b = true ->
  exists envelope callbackData r,
    Js.get b "Body" = Js.Ok envelope /\
    Js.get envelope "stkCallback" = Js.Ok callbackData /\
    reconcile b st = (Js.Ok r, st) /\
    userId (baseTransaction r) = Js.Str "686c2e0f0027634a8e93" /\
    Js.get callbackData "CheckoutRequestID"
      = Js.Ok (checkoutRequestID (baseTransaction r)) /\
    Js.get callbackData "MerchantRequestID"
      = Js.Ok (merchantRequestID (baseTransaction r)) /\
    Js.get callbackData "ResultCode" = Js.Ok (resultCode (baseTransaction r)) /\
    Js.get callbackData "ResultDesc" = Js.Ok (resultDesc (baseTransaction r)) /\
    storedData r
      = map_get (pendingTransactions st) (checkoutRequestID (baseTransaction r)).
Proof.
  unfold callback_readable. intros H.
  destruct (Js.get b "Body") as [envelope|] eqn:Hb; [|discriminate].
  destruct (Js.get envelope "stkCallback") as [cb|] eqn:He; [|discriminate].
  exists envelope, cb.
  destruct (readable cb) eqn:Hcb;
    [| rewrite (get_unreadable cb _ Hcb) in H; discriminate].
  destruct (get_readable cb "CheckoutRequestID" Hcb) as [c Hc].
  destruct (get_readable cb "MerchantRequestID" Hcb) as [m Hm].
  destruct (get_readable cb "ResultCode" Hcb) as [rc Hrc].
  destruct (get_readable cb "ResultDesc" Hcb) as [rd Hrd].
  destruct (Js.get cb "CallbackMetadata") as [metadata|] eqn:Hmeta;
    [|discriminate].
  unfold reconcile; unfold_monad.
  rewrite Hb, He, Hc, Hm, Hrc, Hrd, Hmeta.
  destruct (Js.truthy metadata).
  - destruct (Js.get metadata "Item") as [[| | | | |items|]|]; try discriminate.
    cbn [Js.for_each_items].
    match goal with
    | |- context [scan_items ?t items] =>
        destruct (scan_items_readable items t H) as (t' & -> & E)
    end.
    cbn in E. decompose [and] E.
    eexists. split; [reflexivity|]. split; [reflexivity|].
    split; [reflexivity|]. cbn.
    repeat split; congruence.
  - eexists. split; [reflexivity|]. split; [reflexivity|].
    split; [reflexivity|]. cbn. repeat split; reflexivity.
Qed.

(** Any other callback makes the handler's [try] block throw. *)
Lemma reconcile_unreadable (b : Js.value) (st : State) :
  callback_readable b = false ->
  reconcile b st = (Js.Throw Js.TypeError, st).
Proof.
  unfold callback_readable. intros H. unfold reconcile; unfold_monad.
  destruct (Js.get b "Body") as [envelope|] eqn:Hb.
  2:{ destruct b; try discriminate; cbn in Hb; inversion Hb; reflexivity. }
  destruct (Js.get envelope "stkCallback") as [cb|] eqn:He.
  2:{ destruct envelope; try discriminate; cbn in He; inversion He;
      reflexivity. }
  destruct (readable cb) eqn:Hcb.
  2:{ now rewrite (get_unreadable cb _ Hcb). }
  destruct (get_readable cb "CheckoutRequestID" Hcb) as [c ->].
  destruct (get_readable cb "MerchantRequestID" Hcb) as [m ->].
  destruct (get_readable cb "ResultCode" Hcb) as [rc ->].
  destruct (get_readable cb "ResultDesc" Hcb) as [rd ->].
  destruct (get_readable cb "CallbackMetadata" Hcb) as [metadata Hm].
  rewrite Hm in *.
  destruct (Js.truthy metadata); [|discriminate].
  destruct (Js.get metadata "Item") as [item|] eqn:Hi.
  2:{ destruct metadata; try discriminate; cbn in Hi; inversion Hi;
      reflexivity. }
  destruct item; try reflexivity.
  cbn [Js.for_each_items]. now rewrite scan_items_unreadable.
Qed.

(** Without metadata the record is [baseTransaction] as it is
    initialised: the payload's four fields, [null] for the receipt
    number, the date and the phone number, and 1 for the amount. *)
Lemma reconcile_without_metadata (b envelope callbackData metadata : Js.value)
  (st : State) :
  Js.get b "Body" = Js.Ok envelope ->
  Js.get envelope "stkCallback" = Js.Ok callbackData ->
  Js.get callbackData "CallbackMetadata" = Js.Ok metadata ->
  Js.truthy metadata = false ->
  exists c m rc rd,
    Js.get callbackData "CheckoutRequestID" = Js.Ok c /\
    Js.get callbackData "MerchantRequestID" = Js.Ok m /\
    Js.get callbackData "ResultCode" = Js.Ok rc /\
    Js.get callbackData "ResultDesc" = Js.Ok rd /\
    reconcile b st
    = (Js.Ok {| storedData := map_get (pendingTransactions st) c;
                baseTransaction :=
                  {| checkoutRequestID := c;
                     merchantRequestID := m;
                     resultCode := rc;
                     resultDesc := rd;
                     mpesaReceiptNumber := Js.Null;
                     amount := Js.int 1;
                     transactionDate := Js.Null;
                     phoneNumber := Js.Null;
                     userId := Js.Str "686c2e0f0027634a8e93" |} |},
       st).
Proof.
  intros Hb He Hm Ht.
  assert (Hcb : readable callbackData = true)
    by (destruct callbackData; try discriminate; reflexivity).
  destruct (get_readable callbackData "CheckoutRequestID" Hcb) as [c Hc].
  destruct (get_readable callbackData "MerchantRequestID" Hcb) as [m Hmr].
  destruct (get_readable callbackData "ResultCode" Hcb) as [rc Hrc].
  destruct (get_readable callbackData "ResultDesc" Hcb) as [rd Hrd].
  exists c, m, rc, rd. repeat (split; [assumption|]).
  unfold reconcile; unfold_monad.
  now rewrite Hb, He, Hc, Hmr, Hrc, Hrd, Hm, Ht.
Qed.

(** The callback route: 200 for a callback that can be read to the
    end, 500 for any other; the state is the same afterwards. *)
Lemma stk_callback_route_cases (b : Js.value) (st : State) :
  stk_callback_route b st
  = (Replied (sendStatus (if callback_readable b then 200 else 500)), st).
Proof.
  unfold stk_callback_route, stk_callback_handler; unfold_monad.
  destruct (callback_readable b) eqn:H.
  - destruct (reconcile_readable b st H) as (? & ? & r & _ & _ & -> & _).
    reflexivity.
  - now rewrite (reconcile_unreadable b st H).
Qed.

(** ** Runs of the server *)

Lemma serve_keeps_pending (st : State) (r : Incoming) :
  pendingTransactions (snd (serve st r)) = pendingTransactions st.
Proof.
  destruct r as [w b|b]; cbn [serve].
  - destruct (stkpush_route_state w b st) as (events & H & _). exact H.
  - now rewrite stk_callback_route_cases.
Qed.

Lemma serve_keeps_persisted (st : State) (r : Incoming) :
  persisted (snd (serve st r)) = persisted st.
Proof.
  destruct r as [w b|b]; cbn [serve].
  - destruct (stkpush_route_state w b st) as (events & _ & Ht & Hn).
    unfold persisted. rewrite Ht, List.filter_app.
    replace (List.filter is_persistence events) with (@nil event);
      [now rewrite app_nil_r|].
    clear Ht. induction events as [|e events IH]; [reflexivity|].
    cbn in Hn. apply andb_true_iff in Hn as [He Hn].
    destruct e; cbn in *; try discriminate; auto.
  - now rewrite stk_callback_route_cases.
Qed.

(** From the state of a fresh process the map stays empty and nothing
    is ever handed to the Persistence Gateway. *)
Lemma run_invariant (rs : list Incoming) (st : State) :
  pendingTransactions (run st rs) = pendingTransactions st /\
  persisted (run st rs) = persisted st.
Proof.
  revert st. induction rs as [|r rs IH]; intros st; cbn [run]; [auto|].
  destruct (IH (snd (serve st r))) as [Hp Hd].
  now rewrite Hp, Hd, serve_keeps_pending, serve_keeps_persisted.
Qed.

(** The calls a request to [/stkpush] makes: token requests and push
    requests that carry the configured short code, the time of the
    request and the password computed from them. *)
Lemma stkpush_route_emits (w : World) (b : Js.value) (st : State) (e : event) :
  In e (emitted st (snd (stkpush_route w b st))) ->
  (exists authorization, e = HttpGet token_url authorization) \/
  push_request_ok w e.
Proof.
  pose proof (stkpush_route_cases w b st) as H.
  destruct (validateStkPushRequest _ st) as [[[r|req']|x] st0].
  - destruct H as [-> _]. cbn [snd].
    rewrite (emitted_app st st []); [intros []| now rewrite app_nil_r].
  - destruct H as [Hb H].
    destruct (getAccessToken_state w st) as [_ Ht].
    assert (Hget : forall g,
               In g match credentials w with
                    | Some (k, s) => [HttpGet token_url (basic_auth k s)]
                    | None => []
                    end -> exists authorization, g = HttpGet token_url authorization).
    { destruct (credentials w) as [[k s]|]; intros g Hg; [|destruct Hg].
      destruct Hg as [<-|[]]. eauto. }
    destruct (getAccessToken w st) as [[token|x] st1]; cbn [snd] in Ht.
    + destruct (stkpush_handler_spec w {| req_body := b; accessToken := token |}
                  st1 Hb) as (r & st2 & posts & Hh & _ & Ht2 & Hok & _).
      rewrite H, Hh. cbn [fst snd].
      rewrite (emitted_app st st2 _ ltac:(rewrite Ht2, Ht, <- app_assoc;
                                            reflexivity)).
      intros He. apply in_app_or in He as [He|He]; auto.
    + rewrite H. cbn [snd]. rewrite (emitted_app st st1 _ Ht). auto.
  - rewrite H. cbn [snd].
    rewrite (emitted_app st st []); [intros []| now rewrite app_nil_r].
Qed.

(** * The claims *)

(** C1 (as the source has it).  The registration of the correlation id
    is disabled in the [/stkpush] handler, and so is the deletion in
    the callback handler: whatever initiations and callbacks a process
    has served, its [pendingTransactions] map is empty.  It holds no
    entry for a correlation id after the initiation that obtained it,
    and none after the reconciliation of a callback for it. *)
Theorem ledger_stays_empty (rs : list Incoming) (c : Js.value) :
  pendingTransactions (run initial_state rs) = [] /\
  map_has (pendingTransactions (run initial_state rs)) c = false.
Proof.
  destruct (run_invariant rs initial_state) as [-> _]. split; reflexivity.
Qed.

(** C1, as the specification states it, fails: the sample initiation
    succeeds with a correlation id, and the map has no entry for it
    afterwards. *)
Lemma initiation_registers_nothing :
  ~ registers_correlation_id sample_world sample_body initial_state.
Proof.
  intros H.
  specialize (H (push_sent push_response)
                (snd (stkpush_route sample_world sample_body initial_state))
                (Js.Str "ws_CO_191220191020363925")
                eq_refl eq_refl eq_refl eq_refl).
  discriminate H.
Qed.

(** C2 (as the source has it).  [getAccessToken] keeps no token: every
    call made with both credentials configured sends one request to
    the token endpoint, with Basic authentication built from
    [base64(consumerKey:consumerSecret)], whatever calls came before;
    a call made without them sends none. *)
Theorem getAccessToken_always_requests (w : World) (st : State) :
  network_calls (snd (getAccessToken w st))
  = (network_calls st ++
       match credentials w with
       | Some (consumerKey, consumerSecret) =>
           [HttpGet token_url
              ("Basic " ++ Base64.encode (consumerKey ++ ":" ++ consumerSecret))]
       | None => []
       end)%list.
Proof.
  destruct (getAccessToken_state w st) as [_ Ht].
  unfold network_calls. rewrite Ht, List.filter_app.
  destruct (credentials w) as [[k s]|]; reflexivity.
Qed.

(** C2, as the specification states it, fails: a second call made
    right after the call that obtained a token sends a second request
    to the token endpoint. *)
Lemma second_call_requests_again :
  ~ reuses_cached_token sample_world initial_state.
Proof.
  intros H.
  destruct (H (Js.Str "tok") (snd (getAccessToken sample_world initial_state))
              eq_refl) as (st2 & Hcall & Hnet).
  vm_compute in Hcall. inversion Hcall; subst st2.
  vm_compute in Hnet. discriminate Hnet.
Qed.

(** C3.  The record built for the cancelled callback (result code
    1032, no metadata) has a [null] receipt number and the payload's
    result description, and its [amount] is the number 1 with which
    [baseTransaction] is initialised, not [null]. *)
Theorem cancelled_callback_record :
  exists r,
    reconcile cancelled_callback initial_state = (Js.Ok r, initial_state) /\
    resultCode (baseTransaction r) = Js.int 1032 /\
    resultDesc (baseTransaction r) = Js.Str "Request cancelled by user" /\
    mpesaReceiptNumber (baseTransaction r) = Js.Null /\
    transactionDate (baseTransaction r) = Js.Null /\
    phoneNumber (baseTransaction r) = Js.Null /\
    amount (baseTransaction r) = Js.int 1 /\
    ~ amount_defaults_to_null cancelled_callback initial_state.
Proof.
  eexists. split; [reflexivity|]. cbn.
  repeat (split; [reflexivity|]).
  intros H. specialize (H _ _ eq_refl). discriminate H.
Qed.

(** C4 (as the source has it).  The [createDocument] call of the
    callback handler is disabled: a callback leaves the state of the
    process as it was, no record has been handed to the Persistence
    Gateway after any sequence of requests, and since no initiation
    registers an entry, every callback finds no stored data for its
    correlation id, the first for an id as well as the second. *)
Theorem callbacks_persist_nothing (rs : list Incoming) (b : Js.value) :
  snd (stk_callback_route b (run initial_state rs)) = run initial_state rs /\
  persisted (run initial_state rs) = [] /\
  forall r st',
    reconcile b (run initial_state rs) = (Js.Ok r, st') ->
    storedData r = Js.Undefined.
Proof.
  split; [now rewrite stk_callback_route_cases|].
  destruct (run_invariant rs initial_state) as [Hp Hd].
  split; [exact Hd|].
  intros r st' Hr.
  destruct (callback_readable b) eqn:Hb.
  - destruct (reconcile_readable b (run initial_state rs) Hb)
      as (? & ? & r' & _ & _ & Hr' & _ & _ & _ & _ & _ & Hs).
    rewrite Hr' in Hr. inversion Hr; subst r'.
    rewrite Hs, Hp. reflexivity.
  - rewrite (reconcile_unreadable b _ Hb) in Hr. discriminate Hr.
Qed.

(** C4, as the specification states it, fails: the callback of a paid
    transaction is processed and no record is written. *)
Lemma paid_callback_not_persisted :
  ~ persists_record paid_callback initial_state.
Proof.
  intros [document H]. vm_compute in H. exact H.
Qed.

(** C5 (as the source has it).  The callback endpoint answers 200 when
    the payload can be read to the end ([Body] and [Body.stkCallback]
    present, [CallbackMetadata] absent or with an array [Item] of
    non-null elements) and 500, from the handler's [catch], when
    reading it throws. *)
Theorem callback_status (b : Js.value) (st : State) :
  exists r,
    stk_callback_route b st = (Replied r, st) /\
    status r = if callback_readable b then 200 else 500.
Proof.
  rewrite stk_callback_route_cases. eexists. split; [reflexivity|].
  destruct (callback_readable b); reflexivity.
Qed.

(** C5, as the specification states it, fails: a body without the
    [Body] envelope is answered with 500. *)
Lemma empty_callback_not_acknowledged :
  ~ acknowledged empty_callback initial_state.
Proof.
  intros (r & st' & H & Hs). vm_compute in H. inversion H; subst r.
  discriminate Hs.
Qed.




Lemma callbacks_persist_nothing_witness :
  exists r st,
    st = run initial_state
           [StkPush sample_world sample_body; StkCallback cancelled_callback] /\
    reconcile cancelled_callback st = (Js.Ok r, st) /\
    storedData r = Js.Undefined.
Proof.
  eexists _, _. split; [reflexivity|]. split; [reflexivity|].
  apply (proj2 (proj2 (callbacks_persist_nothing
                         [StkPush sample_world sample_body;
                          StkCallback cancelled_callback]
                         cancelled_callback))
           _ (run initial_state
                [StkPush sample_world sample_body;
                 StkCallback cancelled_callback])).
  reflexivity.
Defined.

(** C7.  A callback with result code 0 whose metadata list is
    [Amount = 500], [MpesaReceiptNumber = "ABC123"],
    [TransactionDate = 20240101120000], [PhoneNumber = 254712345678]
    gives a record with exactly these four values. *)
Theorem paid_callback_fields (st : State)
  (b envelope callbackData metadata : Js.value) :
  Js.get b "Body" = Js.Ok envelope ->
  Js.get envelope "stkCallback" = Js.Ok callbackData ->
  Js.get callbackData "ResultCode" = Js.Ok (Js.int 0) ->
  Js.get callbackData "CallbackMetadata" = Js.Ok metadata ->
  Js.get metadata "Item" = Js.Ok (Js.Arr metadata_items) ->
  exists r,
    reconcile b st = (Js.Ok r, st) /\
    resultCode (baseTransaction r) = Js.int 0 /\
    amount (baseTransaction r) = Js.int 500 /\
    mpesaReceiptNumber (baseTransaction r) = Js.Str "ABC123" /\
    transactionDate (baseTransaction r) = Js.int 20240101120000 /\
    phoneNumber (baseTransaction r) = Js.int 254712345678.
Proof.
  intros Hb He Hrc Hm Hi.
  assert (Hcb : readable callbackData = true)
    by (destruct callbackData; try discriminate; reflexivity).
  assert (Ht : Js.truthy metadata = true)
    by (destruct metadata; try discriminate; reflexivity).
  destruct (get_readable callbackData "CheckoutRequestID" Hcb) as [c Hc].
  destruct (get_readable callbackData "MerchantRequestID" Hcb) as [m Hmr].
  destruct (get_readable callbackData "ResultDesc" Hcb) as [rd Hrd].
  unfold reconcile; unfold_monad.
  rewrite Hb, He, Hc, Hmr, Hrc, Hrd, Hm, Ht, Hi.
  eexists. split; [reflexivity|]. cbn. repeat split; reflexivity.
Qed.

Lemma paid_callback_fields_witness :
  exists r,
    reconcile paid_callback initial_state = (Js.Ok r, initial_state) /\
    resultCode (baseTransaction r) = Js.int 0 /\
    amount (baseTransaction r) = Js.int 500 /\
    mpesaReceiptNumber (baseTransaction r) = Js.Str "ABC123" /\
    transactionDate (baseTransaction r) = Js.int 20240101120000 /\
    phoneNumber (baseTransaction r) = Js.int 254712345678.
Proof.
  eapply (paid_callback_fields initial_state paid_callback); reflexivity.
Defined.

(** C8.  With the short code and the pass key configured, every push
    request that the route sends carries the time of the request as
    its [Timestamp] and, as its [Password], the base64 of the short
    code, the pass key and that same [Timestamp] in a row; and the
    route sends such a request for every request that passes
    validation and obtains a token. *)
Theorem password_uses_request_timestamp (w : World) (st : State)
  (b : Js.value) (shortCode passKey : string) :
  env w "BUSINESSSHORTCODE" = Some shortCode ->
  env w "PASSKEY" = Some passKey ->
  (forall url request authorization,
      In (HttpPost url request authorization)
         (emitted st (snd (stkpush_route w b st))) ->
      BusinessShortCode request = Js.Str shortCode /\
      Timestamp request = format_YYYYMMDDHHmmss (clock w) /\
      Password request
      = Base64.encode (shortCode ++ passKey ++ Timestamp request)) /\
  (forall req st0 token st1 bearer,
      validateStkPushRequest {| req_body := b; accessToken := Js.Undefined |} st
      = (Js.Ok (Next req), st0) ->
      getAccessToken w st = (Js.Ok token, st1) ->
      Js.to_string token = Js.Ok bearer ->
      exists request,
        trace (snd (stkpush_route w b st))
        = (trace st1 ++ [HttpPost stkPushUrl request ("Bearer " ++ bearer)])%list
        /\ Password request
           = Base64.encode (shortCode ++ passKey ++ Timestamp request)).
Proof.
  intros Hsc Hpk. split.
  - intros url request authorization He.
    apply stkpush_route_emits in He as [[a Ha]|Hok]; [discriminate Ha|].
    cbn in Hok. destruct Hok as (_ & Hts & Hbsc & Hpw).
    rewrite Hsc in Hbsc. cbn in Hbsc.
    rewrite Hbsc, Hpk in Hpw. cbn [Js.of_env] in Hpw.
    rewrite password_of_strings in Hpw. inversion Hpw. auto.
  - intros req st0 token st1 bearer Hv Hg Htok.
    pose proof (stkpush_route_cases w b st) as H.
    rewrite Hv, Hg in H. destruct H as [Hb H]. rewrite H. cbn [snd].
    apply (stkpush_handler_posts w {| req_body := b; accessToken := token |}
             st1 shortCode passKey bearer); auto.
Qed.

Lemma password_uses_request_timestamp_witness :
  exists request,
    trace (snd (stkpush_route sample_world sample_body initial_state))
    = (trace (snd (getAccessToken sample_world initial_state))
         ++ [HttpPost stkPushUrl request "Bearer tok"])%list /\
    Password request
    = Base64.encode ("174379" ++ "passkey" ++ Timestamp request).
Proof.
  apply (proj2 (password_uses_request_timestamp sample_world initial_state
                  sample_body "174379" "passkey" eq_refl eq_refl)
           {| req_body := sample_body; accessToken := Js.Undefined |}
           initial_state (Js.Str "tok")
           (snd (getAccessToken sample_world initial_state)) "tok");
    reflexivity.
Defined.

Example sample_password :
  exists request authorization,
    In (HttpPost stkPushUrl request authorization)
       (trace (snd (stkpush_route sample_world sample_body initial_state))) /\
    Timestamp request = "20240101120005" /\
    Password request = "MTc0Mzc5cGFzc2tleTIwMjQwMTAxMTIwMDA1".
Proof.
  eexists _, _. split; [right; left; reflexivity|]. split; reflexivity.
Qed.

(** C9, as the specification states it, fails: without credentials the
    sample request is answered with 500 and a body whose only property
    is [error]. *)
Lemma auth_failure_body_lacks_success :
  ~ auth_failure_has_success_false no_credentials_world sample_body
      initial_state.
Proof.
  intros H.
  destruct (H _ _ eq_refl) as (r & st' & Hr & _ & Hk).
  vm_compute in Hr. inversion Hr; subst r. discriminate Hk.
Qed.

(** C10.  Every record the callback handler builds has the [userId]
    ["686c2e0f0027634a8e93"], whatever the payload holds and whatever
    the map holds for its correlation id. *)
Theorem userId_is_constant (b : Js.value) (st st' : State) (r : Reconciled) :
  reconcile b st = (Js.Ok r, st') ->
  userId (baseTransaction r) = Js.Str "686c2e0f0027634a8e93".
Proof.
  intros Hr.
  destruct (callback_readable b) eqn:Hb.
  - destruct (reconcile_readable b st Hb)
      as (? & ? & r' & _ & _ & Hr' & Hu & _).
    rewrite Hr' in Hr. inversion Hr; subst r'. exact Hu.
  - rewrite (reconcile_unreadable b st Hb) in Hr. discriminate Hr.
Qed.

Lemma userId_is_constant_witness :
  exists r,
    reconcile paid_callback initial_state = (Js.Ok r, initial_state) /\
    userId (baseTransaction r) = Js.Str "686c2e0f0027634a8e93".
Proof.
  eexists. split; [reflexivity|].
  apply (userId_is_constant paid_callback initial_state initial_state).
  reflexivity.
Defined.

(** * Further properties of the code *)

(** ** Validation *)

Lemma strip_prefix_spec (p s r : string) :
  Js.strip_prefix p s = Some r <-> s = p ++ r.
Proof.
  revert s. induction p as [|a p IH]; intros s; cbn.
  - split; intros H; [inversion H | subst]; reflexivity.
  - destruct s as [|b s]; [split; discriminate|].
    destruct (Ascii.eqb_spec a b) as [->|Hab].
    + rewrite IH. split; intros H; [now subst | now inversion H].
    + split; [discriminate|]. intros H. congruence.
Qed.

(** From a position that is not the first, the pattern matches
    nowhere. *)
Lemma phone_regexp_needs_start (s : string) :
  regexp_search phone_regexp false s = false.
Proof. induction s as [|c s IH]; cbn; [reflexivity | exact IH]. Qed.

(** [\d{n}$]: the rest of the input is [n] digits. *)
Lemma digits_then_end (n : nat) (a : bool) (s : string) :
  regexp_match (Times n DigitClass) a s
    (fun a' rest => regexp_match AssertEnd a' rest (fun _ _ => true))
  = Str.all Str.is_digit s && (String.length s =? n)%nat.
Proof.
  revert a s. induction n as [|n IH]; intros a s.
  - destruct s as [|c s]; cbn; [reflexivity | now rewrite andb_false_r].
  - destruct s as [|c s]; [reflexivity|].
    change (regexp_match (Times (S n) DigitClass) a (String c s)
              (fun a' rest => regexp_match AssertEnd a' rest (fun _ _ => true)))
      with (Str.is_digit c
            && regexp_match (Times n DigitClass) false s
                 (fun a' rest =>
                    regexp_match AssertEnd a' rest (fun _ _ => true))).
    rewrite IH. cbn. now rewrite andb_assoc.
Qed.

(** The test of the regular expression is what the validation
    middleware computes. *)
Lemma phone_regexp_is_pattern (s : string) :
  regexp_test phone_regexp s = phone_pattern s.
Proof.
  unfold regexp_test, phone_pattern.
  assert (Hnone : forall t,
             match t with
             | EmptyString => false
             | String _ rest => regexp_search phone_regexp false rest
             end = false)
    by (intros [|c t]; [reflexivity | apply phone_regexp_needs_start]).
  destruct s as [|c1 s];
    [reflexivity|].
  cbn [regexp_search]. rewrite (Hnone (String c1 s)), orb_false_r.
  cbn [phone_regexp regexp_match andb Js.strip_prefix].
  destruct (Ascii.eqb "2" c1); [|reflexivity]. cbn [andb].
  destruct s as [|c2 s]; [reflexivity|].
  destruct (Ascii.eqb "5" c2); [|reflexivity]. cbn [andb].
  destruct s as [|c3 s]; [reflexivity|].
  destruct (Ascii.eqb "4" c3); [|reflexivity]. cbn [andb].
  exact (digits_then_end 9 false s).
Qed.

(** X3.  [/^254\d{9}$/.test(s)], by the matching of regular
    expressions, holds exactly for the strings made of ["254"] and
    nine ASCII digits, and is the test that the validation middleware
    of this development computes. *)
Theorem phone_pattern_exact (s : string) :
  regexp_test phone_regexp s = phone_pattern s /\
  (regexp_test phone_regexp s = true <->
   exists digits,
     s = "254" ++ digits /\
     String.length digits = 9%nat /\
     Str.all Str.is_digit digits = true).
Proof.
  split; [apply phone_regexp_is_pattern|].
  rewrite phone_regexp_is_pattern. unfold phone_pattern. split.
  - destruct (Js.strip_prefix "254" s) as [r|] eqn:Hr; [|discriminate].
    intros H. apply andb_true_iff in H as [Hd Hl].
    apply Nat.eqb_eq in Hl. apply strip_prefix_spec in Hr.
    exists r. auto.
  - intros (d & -> & Hl & Hd).
    replace (Js.strip_prefix "254" ("254" ++ d)) with (Some d)
      by (symmetry; now apply strip_prefix_spec).
    rewrite Hd, Hl. reflexivity.
Qed.

Example phone_regexp_samples :
  regexp_test phone_regexp "254712345678" = true /\
  regexp_test phone_regexp "x254712345678" = false /\
  regexp_test phone_regexp "2547123456789" = false /\
  regexp_test phone_regexp "25471234567" = false /\
  regexp_test phone_regexp "" = false.
Proof. repeat split; reflexivity. Qed.

(** A falsy phone number has no string form that matches the pattern,
    and a falsy amount is no positive number: the first test of the
    middleware refuses nothing that the other two would accept. *)
Lemma falsy_phone_unmatched (v : Js.value) (s : string) :
  Js.truthy v = false -> Js.to_string v = Js.Ok s -> phone_pattern s = false.
Proof.
  destruct v as [| |[]|n|t|l|f]; cbn [Js.truthy Js.to_string];
    try discriminate; intros Hf Hs; inversion Hs; subst; try reflexivity.
  - apply negb_false_iff in Hf.
    unfold Js.is_zero, Js.number_to_string in *.
    destruct n as [|neg|m e]; cbn [Js.to_binary64 Js.is_nan orb] in *;
      try reflexivity; try discriminate.
    destruct (Js.round_decimal m e); try discriminate; reflexivity.
  - apply negb_false_iff, String.eqb_eq in Hf. subst. reflexivity.
Qed.

Lemma falsy_amount_unaccepted (v : Js.value) (n : Js.number) :
  Js.truthy v = false -> Js.to_number v = Js.Ok n ->
  Js.is_nan n || Js.le_zero n = true.
Proof.
  destruct v as [| |[]|x|t|l|f]; cbn [Js.truthy Js.to_number];
    try discriminate; intros Hf Hn; inversion Hn; subst; try reflexivity.
  - apply negb_false_iff in Hf.
    unfold Js.is_zero, Js.le_zero in *.
    destruct n as [|neg|m e]; cbn [Js.to_binary64 Js.is_nan orb] in *;
      try reflexivity; try discriminate.
    destruct (Js.round_decimal m e); try discriminate; reflexivity.
  - apply negb_false_iff, String.eqb_eq in Hf. subst. reflexivity.
Qed.

(** X1.  The validation middleware calls [next()] exactly for the
    requests whose phone number, as a string, matches the pattern and
    whose amount, as a number, is neither [NaN] nor at most zero; it
    then passes the request on unchanged and touches nothing. *)
Theorem validation_accepts_exactly (req : Request) (st : State)
  (phone amt : Js.value) :
  Js.get (req_body req) "phoneNumber" = Js.Ok phone ->
  Js.get (req_body req) "amount" = Js.Ok amt ->
  (valid_fields phone amt <->
   validateStkPushRequest req st = (Js.Ok (Next req), st)) /\
  (forall req' st',
      validateStkPushRequest req st = (Js.Ok (Next req'), st') ->
      req' = req /\ st' = st).
Proof.
  intros Hp Ha. split; [|intros req' st' H; apply validate_next in H; tauto].
  unfold valid_fields, validateStkPushRequest; unfold_monad.
  rewrite Hp, Ha. split.
  - intros (s & n & Hs & Hpat & Hn & Hnan & Hle).
    destruct (Js.truthy phone) eqn:Htp.
    2:{ rewrite (falsy_phone_unmatched phone s Htp Hs) in Hpat.
        discriminate. }
    destruct (Js.truthy amt) eqn:Hta.
    2:{ pose proof (falsy_amount_unaccepted amt n Hta Hn) as H.
        rewrite Hnan, Hle in H. discriminate. }
    cbn [negb orb]. rewrite Hs, Hpat. cbn [negb]. rewrite Hn, Hnan, Hle.
    reflexivity.
  - destruct (negb (Js.truthy phone) || negb (Js.truthy amt));
      [discriminate|].
    destruct (Js.to_string phone) as [s|]; [|discriminate].
    destruct (phone_pattern s) eqn:Hpat; cbn [negb]; [|discriminate].
    destruct (Js.to_number amt) as [n|]; [|discriminate].
    destruct (Js.is_nan n) eqn:Hnan, (Js.le_zero n) eqn:Hle;
      cbn [orb]; try discriminate.
    intros _. exists s, n. auto.
Qed.

Lemma validation_accepts_exactly_witness :
  validateStkPushRequest
    {| req_body := sample_body; accessToken := Js.Undefined |} initial_state
  = (Js.Ok (Next {| req_body := sample_body; accessToken := Js.Undefined |}),
     initial_state).
Proof.
  apply (proj1 (validation_accepts_exactly
                  {| req_body := sample_body; accessToken := Js.Undefined |}
                  initial_state (Js.Str "254712345678") (Js.int 100)
                  eq_refl eq_refl)).
  exists "254712345678", (Js.Dec 100 0). repeat split; reflexivity.
Defined.

(** X2.  When the phone number or the amount is falsy (absent, [null],
    [false], [0], [NaN] or the empty string) the answer is the 400 of
    the first test, "Phone number and payable amount are required",
    whatever the other field holds: an amount of [0] is reported as
    missing, not as invalid.  No call is made. *)
Theorem falsy_field_reported_missing (w : World) (st : State)
  (b phone amt : Js.value) :
  Js.get b "phoneNumber" = Js.Ok phone ->
  Js.get b "amount" = Js.Ok amt ->
  Js.truthy phone = false \/ Js.truthy amt = false ->
  stkpush_route w b st
  = (Replied (json 400
       [("error", Js.Str "Phone number and payable amount are required")]),
     st).
Proof.
  intros Hp Ha Hf.
  unfold stkpush_route, validateStkPushRequest; unfold_monad.
  cbn [req_body]. rewrite Hp, Ha.
  destruct Hf as [-> | ->]; [reflexivity|].
  rewrite orb_true_r. reflexivity.
Qed.

Lemma falsy_field_reported_missing_witness :
  stkpush_route sample_world zero_amount_body initial_state
  = (Replied (json 400
       [("error", Js.Str "Phone number and payable amount are required")]),
     initial_state).
Proof.
  apply (falsy_field_reported_missing sample_world initial_state
           zero_amount_body (Js.Str "254712345678") (Js.int 0));
    [reflexivity | reflexivity | right; reflexivity].
Defined.

(** X22.  A request without a body that can be destructured, or whose
    phone number and amount are truthy and whose phone number is an
    object that cannot be converted to a string, is answered by the
    error-handling middleware: 500 "Internal server error", and no
    call is made. *)
Theorem unreadable_request_is_internal_error (w : World) (st : State)
  (b : Js.value) :
  readable b = false \/
  (exists phone amt,
      Js.get b "phoneNumber" = Js.Ok phone /\
      Js.get b "amount" = Js.Ok amt /\
      Js.truthy phone = true /\ Js.truthy amt = true /\
      Js.to_string phone = Js.Throw Js.TypeError) ->
  stkpush_route w b st
  = (Replied (json 500 [("error", Js.Str "Internal server error")]), st).
Proof.
  unfold stkpush_route, validateStkPushRequest; unfold_monad. cbn [req_body].
  intros [Hb | (phone & amt & Hp & Ha & Htp & Hta & Hs)].
  - now rewrite (get_unreadable b _ Hb).
  - rewrite Hp, Ha, Htp, Hta. cbn [negb orb]. now rewrite Hs.
Qed.

Lemma unreadable_request_is_internal_error_witness :
  stkpush_route sample_world Js.Undefined initial_state
  = (Replied (json 500 [("error", Js.Str "Internal server error")]),
     initial_state)
  /\
  stkpush_route sample_world
    (Js.Obj [("phoneNumber", Js.Obj [("toString", Js.int 1)]);
             ("amount", Js.int 100)])
    initial_state
  = (Replied (json 500 [("error", Js.Str "Internal server error")]),
     initial_state).
Proof.
  split.
  - apply (unreadable_request_is_internal_error sample_world initial_state
             Js.Undefined).
    left. reflexivity.
  - apply (unreadable_request_is_internal_error sample_world initial_state).
    right. exists (Js.Obj [("toString", Js.int 1)]), (Js.int 100).
    repeat split; reflexivity.
Defined.

(** ** The push request *)

(** [businessShortCode + passkey + timestamp] never throws on
    environment values: a secret that is not set is spelled out. *)
Lemma password_of_env (shortCode passKey : option string) (timestamp : string) :
  password_of (Js.of_env shortCode) (Js.of_env passKey) timestamp
  = Js.Ok (Base64.encode (secrets_text shortCode passKey ++ timestamp)).
Proof.
  destruct shortCode as [sc|], passKey as [pk|];
    unfold password_of, Js.plus, Js.bind;
    cbn [Js.of_env Js.to_primitive Js.to_string Js.to_number Js.buffer_from
         Js.number_add Js.number_to_string secrets_text];
    rewrite ?append_assoc; reflexivity.
Qed.

(** The handler on a request that passed the middlewares: when the
    token has a string form it sends one push request and answers
    according to the outcome; otherwise it answers 500 without a
    call. *)
Lemma stkpush_handler_run (w : World) (req : Request) (st : State) :
  readable (req_body req) = true ->
  stkpush_handler w req st
  = match Js.to_string (accessToken req) with
    | Js.Throw _ => (Js.Ok push_failed, st)
    | Js.Ok bearer =>
        (Js.Ok (push_reply
                  (http_post w stkPushUrl (push_request_of w (req_body req))
                     ("Bearer " ++ bearer))),
         {| pendingTransactions := pendingTransactions st;
            trace := (trace st
                        ++ [HttpPost stkPushUrl
                              (push_request_of w (req_body req))
                              ("Bearer " ++ bearer)])%list |})
    end.
Proof.
  intros Hb. unfold stkpush_handler, push_request_of, field.
  assert (Hget : forall k, exists v, Js.get (req_body req) k = Js.Ok v).
  { intros k. destruct (req_body req); try discriminate; cbn; eauto. }
  destruct (Hget "phoneNumber") as [p ->], (Hget "amount") as [a ->],
    (Hget "accountReference") as [ar ->], (Hget "transactionDesc") as [td ->].
  rewrite password_of_env.
  unfold axios_post; unfold_monad.
  destruct (Js.to_string (accessToken req)) as [bearer|]; [|reflexivity].
  destruct (http_post w stkPushUrl _ _) as [|data]; [reflexivity|].
  unfold push_reply.
  destruct data; try reflexivity; cbn [Js.get readable];
    destruct (Js.truthy _); reflexivity.
Qed.

(** The state after [getAccessToken]: the state before, with the token
    request added when both credentials are configured. *)
Lemma getAccessToken_state_eq (w : World) (st : State) :
  snd (getAccessToken w st)
  = {| pendingTransactions := pendingTransactions st;
       trace := (trace st ++
                   match credentials w with
                   | Some (k, s) => [HttpGet token_url (basic_auth k s)]
                   | None => []
                   end)%list |}.
Proof.
  destruct (getAccessToken_state w st) as [Hp Ht].
  destruct (snd (getAccessToken w st)) as [p t]. cbn in *. now subst.
Qed.

(** The route, call by call. *)
Lemma stkpush_route_run (w : World) (b : Js.value) (st : State) :
  stkpush_route w b st
  = match
      validateStkPushRequest {| req_body := b; accessToken := Js.Undefined |} st
    with
    | (Js.Throw e, _) => (Replied (error_middleware e), st)
    | (Js.Ok (Respond r), _) => (Replied r, st)
    | (Js.Ok (Next _), _) =>
        match getAccessToken w st with
        | (Js.Throw _, st1) => (Replied auth_failed, st1)
        | (Js.Ok token, st1) =>
            match Js.to_string token with
            | Js.Throw _ => (Replied push_failed, st1)
            | Js.Ok bearer =>
                (Replied
                   (push_reply
                      (http_post w stkPushUrl (push_request_of w b)
                         ("Bearer " ++ bearer))),
                 {| pendingTransactions := pendingTransactions st1;
                    trace := (trace st1
                                ++ [HttpPost stkPushUrl (push_request_of w b)
                                      ("Bearer " ++ bearer)])%list |})
            end
        end
    end.
Proof.
  pose proof (stkpush_route_cases w b st) as H.
  destruct (validateStkPushRequest _ st) as [[[r|req']|e] st0].
  - tauto.
  - destruct H as [Hb H].
    destruct (getAccessToken w st) as [[token|e] st1]; [|exact H].
    rewrite H, (stkpush_handler_run w {| req_body := b; accessToken := token |}
                  st1 Hb).
    cbn [accessToken req_body fst snd].
    destruct (Js.to_string token); reflexivity.
  - exact H.
Qed.

(** X4.  One request to [/stkpush] makes no call, or one token
    request, or one token request followed by one push request: the
    push is never sent without a token request before it in the same
    request, and nothing is sent twice. *)
Theorem stkpush_calls_shape (w : World) (b : Js.value) (st : State) :
  emitted st (snd (stkpush_route w b st)) = [] \/
  exists k s,
    credentials w = Some (k, s) /\
    (emitted st (snd (stkpush_route w b st))
     = [HttpGet token_url (basic_auth k s)]
     \/
     exists bearer,
       emitted st (snd (stkpush_route w b st))
       = [HttpGet token_url (basic_auth k s);
          HttpPost stkPushUrl (push_request_of w b) ("Bearer " ++ bearer)]).
Proof.
  rewrite stkpush_route_run.
  destruct (validateStkPushRequest _ st) as [[[r|req']|e] st0]; cbn [snd];
    try (left; apply emitted_app; now rewrite app_nil_r).
  destruct (credentials w) as [[k s]|] eqn:Hc.
  - rewrite (getAccessToken_configured w st k s Hc).
    right. exists k, s. split; [reflexivity|].
    assert (Hfail : forall A (x : A),
               emitted st
                 (snd (x, {| pendingTransactions := pendingTransactions st;
                             trace := (trace st
                                         ++ [HttpGet token_url (basic_auth k s)])%list |}))
               = [HttpGet token_url (basic_auth k s)])
      by (intros; now apply emitted_app).
    destruct (http_get w token_url (basic_auth k s)) as [|data];
      [left; apply Hfail|].
    destruct (Js.get data "access_token") as [token|]; [|left; apply Hfail].
    destruct (Js.to_string token) as [bearer|]; [|left; apply Hfail].
    right. exists bearer. apply emitted_app. cbn [snd trace].
    now rewrite <- app_assoc.
  - rewrite (getAccessToken_missing w st Hc). left.
    apply emitted_app. now rewrite app_nil_r.
Qed.

(** The calls of one request to [/stkpush], as a function of what the
    request meets. *)
Lemma stkpush_route_emitted (w : World) (b : Js.value) (st : State) :
  emitted st (snd (stkpush_route w b st))
  = match
      validateStkPushRequest {| req_body := b; accessToken := Js.Undefined |} st,
      credentials w
    with
    | (Js.Ok (Next _), _), Some (k, s) =>
        HttpGet token_url (basic_auth k s)
        :: match http_get w token_url (basic_auth k s) with
           | Rejected => []
           | Resolved data =>
               match Js.get data "access_token" with
               | Js.Throw _ => []
               | Js.Ok token =>
                   match Js.to_string token with
                   | Js.Throw _ => []
                   | Js.Ok bearer =>
                       [HttpPost stkPushUrl (push_request_of w b)
                          ("Bearer " ++ bearer)]
                   end
               end
           end
    | _, _ => []
    end.
Proof.
  rewrite stkpush_route_run.
  destruct (validateStkPushRequest _ st) as [[[r|req']|e] st0]; cbn [snd];
    try (destruct (credentials w) as [[? ?]|];
         apply emitted_app; now rewrite app_nil_r).
  destruct (credentials w) as [[k s]|] eqn:Hc.
  - rewrite (getAccessToken_configured w st k s Hc).
    destruct (http_get w token_url (basic_auth k s)) as [|data];
      [now apply emitted_app|].
    destruct (Js.get data "access_token") as [token|];
      [|now apply emitted_app].
    destruct (Js.to_string token) as [bearer|]; [|now apply emitted_app].
    apply emitted_app. cbn [snd trace]. now rewrite <- app_assoc.
  - rewrite (getAccessToken_missing w st Hc).
    apply emitted_app. now rewrite app_nil_r.
Qed.

(** What validation has checked when it calls [next()]. *)
Lemma validate_next_fields (req req' : Request) (st st' : State) :
  validateStkPushRequest req st = (Js.Ok (Next req'), st') ->
  readable (req_body req) = true /\
  valid_fields (field (req_body req) "phoneNumber")
    (field (req_body req) "amount").
Proof.
  intros H. pose proof (validate_next req req' st st' H) as (_ & _ & Hb).
  split; [exact Hb|]. revert H.
  unfold valid_fields, validateStkPushRequest, field; unfold_monad.
  destruct (get_readable (req_body req) "phoneNumber" Hb) as [phone ->].
  destruct (get_readable (req_body req) "amount" Hb) as [amt ->].
  destruct (negb (Js.truthy phone) || negb (Js.truthy amt)); [discriminate|].
  destruct (Js.to_string phone) as [s|]; [|discriminate].
  destruct (phone_pattern s) eqn:Hpat; cbn [negb]; [|discriminate].
  destruct (Js.to_number amt) as [n|]; [|discriminate].
  destruct (Js.is_nan n) eqn:Hnan, (Js.le_zero n) eqn:Hle;
    cbn [orb]; try discriminate.
  intros _. exists s, n. auto.
Qed.

Lemma carries_request_of (w : World) (b : Js.value) :
  readable b = true -> carries_request w b (push_request_of w b).
Proof.
  intros Hb. unfold carries_request, push_request_of, field. cbn.
  destruct (get_readable b "phoneNumber" Hb) as [p ->].
  destruct (get_readable b "amount" Hb) as [a ->].
  destruct (get_readable b "accountReference" Hb) as [ar ->].
  destruct (get_readable b "transactionDesc" Hb) as [td ->].
  repeat split; reflexivity.
Qed.

(** X5.  No exception escapes the [/stkpush] route: whenever its
    calls settle, the request is answered, with status 200, 400 or
    500.  The handler's reading of the body outside its [try] cannot
    throw, because validation read the same body before. *)
Theorem stkpush_always_answers (w : World) (b : Js.value) (st : State) :
  exists r st',
    stkpush_route w b st = (Replied r, st') /\
    (status r = 200 \/ status r = 400 \/ status r = 500).
Proof.
  rewrite stkpush_route_run.
  destruct (validateStkPushRequest _ st) as [[[r|req']|e] st0] eqn:Hv.
  - apply validate_respond in Hv as [_ [msg ->]].
    eexists _, _. split; [reflexivity | cbn; auto].
  - destruct (getAccessToken w st) as [[token|e] st1];
      [|eexists _, _; split; [reflexivity | cbn; auto]].
    destruct (Js.to_string token) as [bearer|];
      [|eexists _, _; split; [reflexivity | cbn; auto]].
    eexists _, _. split; [reflexivity|].
    unfold push_reply.
    destruct (http_post w stkPushUrl _ _) as [|data]; [cbn; auto|].
    destruct (readable data); cbn; auto.
  - eexists _, _. split; [reflexivity | cbn; auto].
Qed.

(** X6.  A push request is sent only for a validated body and carries
    it as it came: payer and phone number are the caller's
    [phoneNumber], whose string form matches the pattern; the amount
    is the caller's [amount], a positive number; reference and
    description are the caller's; the payee is the short code. *)
Theorem push_request_carries_validated_body (w : World) (b : Js.value)
  (st : State) (url : string) (request : StkRequest) (authorization : string) :
  In (HttpPost url request authorization)
     (emitted st (snd (stkpush_route w b st))) ->
  url = stkPushUrl /\
  carries_request w b request /\
  valid_fields (PartyA request) (Amount request).
Proof.
  rewrite stkpush_route_emitted.
  destruct (validateStkPushRequest _ st) as [[[r|req']|e] st0] eqn:Hv;
    [destruct (credentials w) as [[? ?]|]; intros [] | |
     destruct (credentials w) as [[? ?]|]; intros []].
  apply validate_next_fields in Hv as [Hb Hvalid]. cbn [req_body] in *.
  destruct (credentials w) as [[k s]|]; [|intros []].
  intros [H|H]; [discriminate H|].
  destruct (http_get w token_url (basic_auth k s)) as [|data]; [destruct H|].
  destruct (Js.get data "access_token") as [token|]; [|destruct H].
  destruct (Js.to_string token) as [bearer|]; [|destruct H].
  destruct H as [H|[]]. inversion H; subst.
  split; [reflexivity|]. split; [now apply carries_request_of|exact Hvalid].
Qed.

Lemma push_request_carries_validated_body_witness :
  carries_request sample_world sample_body
    (push_request_of sample_world sample_body) /\
  valid_fields (Js.Str "254712345678") (Js.int 100).
Proof.
  apply (push_request_carries_validated_body sample_world sample_body
           initial_state stkPushUrl
           (push_request_of sample_world sample_body) "Bearer tok").
  right. left. reflexivity.
Defined.

(** ** The token *)

(** X8.  [getAccessToken] fails in two ways only: with "Missing M-Pesa
    credentials in environment variables" when a credential is unset
    or empty, before any request; and with "Failed to get access
    token" when its one request is rejected or answered with [null].
    When it returns, the value is the [access_token] property of the
    gateway's answer. *)
Theorem getAccessToken_outcomes (w : World) (st st1 : State)
  (outcome : Js.result Js.value) :
  getAccessToken w st = (outcome, st1) ->
  match outcome with
  | Js.Throw e =>
      e = Js.Error "Missing M-Pesa credentials in environment variables" /\
      credentials w = None /\ st1 = st
      \/
      e = Js.Error "Failed to get access token" /\
      exists k s,
        credentials w = Some (k, s) /\
        emitted st st1 = [HttpGet token_url (basic_auth k s)] /\
        (http_get w token_url (basic_auth k s) = Rejected \/
         exists data,
           http_get w token_url (basic_auth k s) = Resolved data /\
           readable data = false)
  | Js.Ok token =>
      exists k s data,
        credentials w = Some (k, s) /\
        emitted st st1 = [HttpGet token_url (basic_auth k s)] /\
        http_get w token_url (basic_auth k s) = Resolved data /\
        Js.get data "access_token" = Js.Ok token
  end.
Proof.
  destruct (credentials w) as [[k s]|] eqn:Hc.
  - rewrite (getAccessToken_configured w st k s Hc).
    assert (He : forall st',
               trace st' = (trace st ++ [HttpGet token_url (basic_auth k s)])%list ->
               emitted st st' = [HttpGet token_url (basic_auth k s)])
      by (intros; now apply emitted_app).
    destruct (http_get w token_url (basic_auth k s)) as [|data] eqn:Hg.
    + intros H. inversion H; subst. right. split; [reflexivity|].
      exists k, s. split; [reflexivity|]. split; [now apply He|].
      left. assumption || reflexivity.
    + destruct (Js.get data "access_token") as [token|] eqn:Ht;
        intros H; inversion H; subst.
      * exists k, s, data. repeat split; try assumption. now apply He.
      * right. split; [reflexivity|]. exists k, s. split; [reflexivity|].
        split; [now apply He|]. right. exists data.
        split; [assumption || reflexivity|].
        destruct data; try discriminate; reflexivity.
  - rewrite (getAccessToken_missing w st Hc). intros H. inversion H; subst.
    left. auto.
Qed.

Lemma getAccessToken_outcomes_witness :
  Js.Error "Missing M-Pesa credentials in environment variables"
  = Js.Error "Missing M-Pesa credentials in environment variables" /\
  credentials no_credentials_world = None /\ initial_state = initial_state
  \/
  Js.Error "Missing M-Pesa credentials in environment variables"
  = Js.Error "Failed to get access token" /\
  exists k s,
    credentials no_credentials_world = Some (k, s) /\
    emitted initial_state initial_state = [HttpGet token_url (basic_auth k s)] /\
    (http_get no_credentials_world token_url (basic_auth k s) = Rejected \/
     exists data,
       http_get no_credentials_world token_url (basic_auth k s)
       = Resolved data /\
       readable data = false).
Proof.
  apply (getAccessToken_outcomes no_credentials_world initial_state
           initial_state
           (Js.Throw
              (Js.Error "Missing M-Pesa credentials in environment variables"))).
  reflexivity.
Defined.

(** X7.  An answer of the token endpoint that has no [access_token]
    property is not a failure: the token is [undefined], and a request
    that passed validation is pushed with the header
    ["Bearer undefined"]. *)
Theorem missing_access_token_is_sent_as_undefined (w : World) (b : Js.value)
  (st st0 : State) (req : Request) (k s : string) (data : Js.value) :
  validateStkPushRequest {| req_body := b; accessToken := Js.Undefined |} st
  = (Js.Ok (Next req), st0) ->
  credentials w = Some (k, s) ->
  http_get w token_url (basic_auth k s) = Resolved data ->
  Js.get data "access_token" = Js.Ok Js.Undefined ->
  emitted st (snd (stkpush_route w b st))
  = [HttpGet token_url (basic_auth k s);
     HttpPost stkPushUrl (push_request_of w b) "Bearer undefined"].
Proof.
  intros Hv Hc Hg Ht.
  rewrite stkpush_route_emitted, Hv, Hc, Hg, Ht. reflexivity.
Qed.

Lemma missing_access_token_is_sent_as_undefined_witness :
  emitted initial_state
    (snd (stkpush_route tokenless_world sample_body initial_state))
  = [HttpGet token_url (basic_auth "key" "secret");
     HttpPost stkPushUrl (push_request_of tokenless_world sample_body)
       "Bearer undefined"].
Proof.
  apply (missing_access_token_is_sent_as_undefined tokenless_world sample_body
           initial_state initial_state
           {| req_body := sample_body; accessToken := Js.Undefined |}
           "key" "secret" (Js.Obj [("expires_in", Js.Str "3599")]));
    reflexivity.
Defined.

(** ** The outcome of the push *)

(** X9.  For a request that passed validation and obtained a token,
    the handler sends exactly one push request, whatever its outcome,
    and the answer follows that outcome: 500 when the request is
    rejected; 200 with the gateway's answer as [data] when it
    resolves, with or without a [CheckoutRequestID] in it; and 500
    when it resolves with [null]. *)
Theorem push_outcome_decides_answer (w : World) (b : Js.value)
  (st st0 st1 : State) (req : Request) (token : Js.value) (bearer : string) :
  validateStkPushRequest {| req_body := b; accessToken := Js.Undefined |} st
  = (Js.Ok (Next req), st0) ->
  getAccessToken w st = (Js.Ok token, st1) ->
  Js.to_string token = Js.Ok bearer ->
  exists r st2,
    stkpush_route w b st = (Replied r, st2) /\
    emitted st1 st2
    = [HttpPost stkPushUrl (push_request_of w b) ("Bearer " ++ bearer)] /\
    match
      http_post w stkPushUrl (push_request_of w b) ("Bearer " ++ bearer)
    with
    | Rejected => r = push_failed
    | Resolved data =>
        match data with
        | Js.Undefined | Js.Null => r = push_failed
        | _ => r = push_sent data
        end
    end.
Proof.
  intros Hv Hg Ht. rewrite stkpush_route_run, Hv, Hg, Ht.
  eexists _, _. split; [reflexivity|]. split; [now apply emitted_app|].
  destruct (http_post w stkPushUrl _ _) as [|data]; [reflexivity|].
  destruct data; reflexivity.
Qed.

Lemma push_outcome_decides_answer_witness :
  (exists r st2,
     stkpush_route refusing_world sample_body initial_state = (Replied r, st2) /\
     emitted (snd (getAccessToken refusing_world initial_state)) st2
     = [HttpPost stkPushUrl (push_request_of refusing_world sample_body)
          ("Bearer " ++ "tok")] /\
     match
       http_post refusing_world stkPushUrl
         (push_request_of refusing_world sample_body) ("Bearer " ++ "tok")
     with
     | Rejected => r = push_failed
     | Resolved data =>
         match data with
         | Js.Undefined | Js.Null => r = push_failed
         | _ => r = push_sent data
         end
     end) /\
  (exists r st2,
     stkpush_route null_answer_world sample_body initial_state
     = (Replied r, st2) /\
     emitted (snd (getAccessToken null_answer_world initial_state)) st2
     = [HttpPost stkPushUrl (push_request_of null_answer_world sample_body)
          ("Bearer " ++ "tok")] /\
     match
       http_post null_answer_world stkPushUrl
         (push_request_of null_answer_world sample_body) ("Bearer " ++ "tok")
     with
     | Rejected => r = push_failed
     | Resolved data =>
         match data with
         | Js.Undefined | Js.Null => r = push_failed
         | _ => r = push_sent data
         end
     end).
Proof.
  split.
  - apply (push_outcome_decides_answer refusing_world sample_body
             initial_state initial_state
             (snd (getAccessToken refusing_world initial_state))
             {| req_body := sample_body; accessToken := Js.Undefined |}
             (Js.Str "tok") "tok"); reflexivity.
  - apply (push_outcome_decides_answer null_answer_world sample_body
             initial_state initial_state
             (snd (getAccessToken null_answer_world initial_state))
             {| req_body := sample_body; accessToken := Js.Undefined |}
             (Js.Str "tok") "tok"); reflexivity.
Defined.

(** X10.  The push secrets are not checked: when [BUSINESSSHORTCODE]
    or [PASSKEY] is not set the request is sent all the same, its
    password being the base64 of the text that [+] makes of the two
    values (the word [undefined] for the one that is unset, [NaN]
    when both are) followed by the request's [Timestamp]. *)
Theorem unset_secrets_are_spelled_out (w : World) (b : Js.value)
  (st st0 st1 : State) (req : Request) (token : Js.value) (bearer : string) :
  validateStkPushRequest {| req_body := b; accessToken := Js.Undefined |} st
  = (Js.Ok (Next req), st0) ->
  getAccessToken w st = (Js.Ok token, st1) ->
  Js.to_string token = Js.Ok bearer ->
  exists request,
    emitted st1 (snd (stkpush_route w b st))
    = [HttpPost stkPushUrl request ("Bearer " ++ bearer)] /\
    BusinessShortCode request = Js.of_env (env w "BUSINESSSHORTCODE") /\
    password_of (Js.of_env (env w "BUSINESSSHORTCODE"))
      (Js.of_env (env w "PASSKEY")) (Timestamp request)
    = Js.Ok (Password request) /\
    Password request
    = Base64.encode
        (match env w "BUSINESSSHORTCODE", env w "PASSKEY" with
         | Some shortCode, Some passKey => shortCode ++ passKey
         | Some shortCode, None => shortCode ++ "undefined"
         | None, Some passKey => "undefined" ++ passKey
         | None, None => "NaN"
         end ++ Timestamp request).
Proof.
  intros Hv Hg Ht. rewrite stkpush_route_run, Hv, Hg, Ht. cbn [snd].
  exists (push_request_of w b).
  split; [now apply emitted_app|]. split; [reflexivity|].
  split; [apply password_of_env | reflexivity].
Qed.

Lemma unset_secrets_are_spelled_out_witness :
  exists request,
    emitted (snd (getAccessToken no_secrets_world initial_state))
      (snd (stkpush_route no_secrets_world sample_body initial_state))
    = [HttpPost stkPushUrl request ("Bearer " ++ "tok")] /\
    BusinessShortCode request
    = Js.of_env (env no_secrets_world "BUSINESSSHORTCODE") /\
    password_of (Js.of_env (env no_secrets_world "BUSINESSSHORTCODE"))
      (Js.of_env (env no_secrets_world "PASSKEY")) (Timestamp request)
    = Js.Ok (Password request) /\
    Password request
    = Base64.encode
        (match
           env no_secrets_world "BUSINESSSHORTCODE",
           env no_secrets_world "PASSKEY"
         with
         | Some shortCode, Some passKey => shortCode ++ passKey
         | Some shortCode, None => shortCode ++ "undefined"
         | None, Some passKey => "undefined" ++ passKey
         | None, None => "NaN"
         end ++ Timestamp request).
Proof.
  apply (unset_secrets_are_spelled_out no_secrets_world sample_body
           initial_state initial_state
           (snd (getAccessToken no_secrets_world initial_state))
           {| req_body := sample_body; accessToken := Js.Undefined |}
           (Js.Str "tok") "tok"); reflexivity.
Defined.

Example unset_secrets_password :
  Password (push_request_of no_secrets_world sample_body)
  = Base64.encode "NaN20240101120005".
Proof. reflexivity. Qed.

(** ** The trace of a running server *)

Lemma serve_trace (st : State) (r : Incoming) :
  exists events,
    trace (snd (serve st r)) = (trace st ++ events)%list /\
    (push_requests events <= token_requests events)%nat.
Proof.
  destruct r as [w b|b]; cbn [serve].
  - exists (emitted st (snd (stkpush_route w b st))). split.
    + destruct (stkpush_route_state w b st) as (events & _ & Ht & _).
      now rewrite (emitted_app _ _ _ Ht).
    + rewrite stkpush_route_emitted.
      destruct (validateStkPushRequest _ st) as [[[r|req']|e] st0];
        destruct (credentials w) as [[k s]|]; try (cbn; lia).
      destruct (http_get w token_url (basic_auth k s)) as [|data];
        [cbn; lia|].
      destruct (Js.get data "access_token") as [token|]; [|cbn; lia].
      destruct (Js.to_string token); cbn; lia.
  - exists []. rewrite stk_callback_route_cases, app_nil_r. cbn. auto.
Qed.

(** X11.  In the trace of a server, whatever initiations and callbacks
    it has served, there are at least as many token requests as push
    requests: every push request was preceded by the token request of
    its own initiation, and callbacks add no call. *)
Theorem pushes_never_outnumber_tokens (rs : list Incoming) :
  (push_requests (trace (run initial_state rs))
   <= token_requests (trace (run initial_state rs)))%nat.
Proof.
  assert (H : forall st,
             (push_requests (trace st) <= token_requests (trace st))%nat ->
             (push_requests (trace (run st rs))
              <= token_requests (trace (run st rs)))%nat).
  { induction rs as [|r rs IH]; intros st Hst; cbn [run]; [exact Hst|].
    apply IH. destruct (serve_trace st r) as (events & -> & He).
    unfold push_requests, token_requests in *.
    rewrite !List.filter_app, !List.length_app. lia. }
  apply H. cbn. lia.
Qed.

(** ** The record of a callback *)

(** X12.  Whenever the callback handler builds a record, with or
    without metadata, its four identification fields are the
    [CheckoutRequestID], [MerchantRequestID], [ResultCode] and
    [ResultDesc] of [Body.stkCallback] as they came, absent ones being
    [undefined]; the state is left as it was. *)
Theorem callback_fields_verbatim (b : Js.value) (st st' : State)
  (r : Reconciled) :
  reconcile b st = (Js.Ok r, st') ->
  st' = st /\
  exists envelope callbackData,
    Js.get b "Body" = Js.Ok envelope /\
    Js.get envelope "stkCallback" = Js.Ok callbackData /\
    Js.get callbackData "CheckoutRequestID"
    = Js.Ok (checkoutRequestID (baseTransaction r)) /\
    Js.get callbackData "MerchantRequestID"
    = Js.Ok (merchantRequestID (baseTransaction r)) /\
    Js.get callbackData "ResultCode" = Js.Ok (resultCode (baseTransaction r)) /\
    Js.get callbackData "ResultDesc" = Js.Ok (resultDesc (baseTransaction r)).
Proof.
  intros Hr.
  destruct (callback_readable b) eqn:Hb.
  - destruct (reconcile_readable b st Hb)
      as (envelope & cb & r' & He & Hc & Hr' & _ & H1 & H2 & H3 & H4 & _).
    rewrite Hr' in Hr. inversion Hr; subst.
    split; [reflexivity|]. exists envelope, cb. auto 7.
  - rewrite (reconcile_unreadable b st Hb) in Hr. discriminate Hr.
Qed.

Lemma callback_fields_verbatim_witness :
  exists r,
    reconcile cancelled_callback initial_state = (Js.Ok r, initial_state) /\
    resultCode (baseTransaction r) = Js.int 1032 /\
    resultDesc (baseTransaction r) = Js.Str "Request cancelled by user".
Proof.
  eexists. split; [reflexivity|].
  destruct (callback_fields_verbatim cancelled_callback initial_state
              initial_state _ eq_refl)
    as (_ & envelope & cb & He & Hc & _ & _ & Hrc & Hrd).
  cbn in He. inversion He; subst envelope.
  cbn in Hc. inversion Hc; subst cb.
  cbn in Hrc, Hrd. inversion Hrc. inversion Hrd. split; reflexivity.
Defined.

(** One step of the scan, field by field. *)
Lemma scan_item_fields (t : Transaction) (item : Js.value) :
  readable item = true ->
  exists t',
    scan_item t item = Js.Ok t' /\
    amount t' = last_value "Amount" [item] (amount t) /\
    mpesaReceiptNumber t'
    = last_value "MpesaReceiptNumber" [item] (mpesaReceiptNumber t) /\
    transactionDate t'
    = last_value "TransactionDate" [item] (transactionDate t) /\
    phoneNumber t' = last_value "PhoneNumber" [item] (phoneNumber t).
Proof.
  intros Hr.
  destruct (get_readable item "Name" Hr) as [name Hn].
  destruct (get_readable item "Value" Hr) as [v Hv].
  unfold scan_item, assign_if. cbn [last_value]. rewrite Hn, Hv.
  cbn [Js.bind].
  destruct name as [| | | |nm| |]; cbn [Js.is_string Js.bind];
    try (eexists; split; [reflexivity|]; cbn; auto).
  destruct (String.eqb nm "Amount") eqn:E1.
  { apply String.eqb_eq in E1. subst nm. cbn.
    eexists; split; [reflexivity|]; cbn; auto. }
  destruct (String.eqb nm "MpesaReceiptNumber") eqn:E2.
  { apply String.eqb_eq in E2. subst nm. cbn.
    eexists; split; [reflexivity|]; cbn; auto. }
  destruct (String.eqb nm "TransactionDate") eqn:E3.
  { apply String.eqb_eq in E3. subst nm. cbn.
    eexists; split; [reflexivity|]; cbn; auto. }
  destruct (String.eqb nm "PhoneNumber") eqn:E4.
  { apply String.eqb_eq in E4. subst nm. cbn.
    eexists; split; [reflexivity|]; cbn; auto. }
  cbn [Js.bind]. eexists; split; [reflexivity|]; cbn; auto.
Qed.

Lemma scan_items_fields (items : list Js.value) (t : Transaction) :
  List.forallb readable items = true ->
  exists t',
    scan_items t items = Js.Ok t' /\
    amount t' = last_value "Amount" items (amount t) /\
    mpesaReceiptNumber t'
    = last_value "MpesaReceiptNumber" items (mpesaReceiptNumber t) /\
    transactionDate t'
    = last_value "TransactionDate" items (transactionDate t) /\
    phoneNumber t' = last_value "PhoneNumber" items (phoneNumber t).
Proof.
  revert t. induction items as [|item rest IH]; intros t H; cbn in H.
  - exists t. cbn. auto.
  - apply andb_true_iff in H as [Hi Hrest].
    destruct (scan_item_fields t item Hi) as (t1 & Hs & A1 & A2 & A3 & A4).
    destruct (IH t1 Hrest) as (t2 & Hs2 & B1 & B2 & B3 & B4).
    exists t2. cbn [scan_items]. rewrite Hs. cbn [Js.bind].
    split; [exact Hs2|].
    cbn [last_value] in *.
    rewrite B1, B2, B3, B4, A1, A2, A3, A4. auto.
Qed.

(** X13.  The metadata scan takes, for each of its four fields, the
    [Value] of the last item of the list whose [Name] is the field's
    name: a later item overrides an earlier one, items with other
    names are ignored, an item without [Value] gives [undefined], and
    a field no item names keeps its initial value. *)
Theorem metadata_last_item_wins (b envelope callbackData metadata : Js.value)
  (items : list Js.value) (st : State) :
  Js.get b "Body" = Js.Ok envelope ->
  Js.get envelope "stkCallback" = Js.Ok callbackData ->
  Js.get callbackData "CallbackMetadata" = Js.Ok metadata ->
  Js.get metadata "Item" = Js.Ok (Js.Arr items) ->
  List.forallb readable items = true ->
  exists r,
    reconcile b st = (Js.Ok r, st) /\
    amount (baseTransaction r) = last_value "Amount" items (Js.int 1) /\
    mpesaReceiptNumber (baseTransaction r)
    = last_value "MpesaReceiptNumber" items Js.Null /\
    transactionDate (baseTransaction r)
    = last_value "TransactionDate" items Js.Null /\
    phoneNumber (baseTransaction r) = last_value "PhoneNumber" items Js.Null.
Proof.
  intros Hb He Hm Hi Hitems.
  assert (Hcb : readable callbackData = true).
  { destruct callbackData; try discriminate; try reflexivity;
      cbn in Hm; inversion Hm; subst; discriminate Hi. }
  assert (Ht : Js.truthy metadata = true)
    by (destruct metadata; try discriminate; reflexivity).
  destruct (get_readable callbackData "CheckoutRequestID" Hcb) as [c Hc].
  destruct (get_readable callbackData "MerchantRequestID" Hcb) as [m Hmr].
  destruct (get_readable callbackData "ResultCode" Hcb) as [rc Hrc].
  destruct (get_readable callbackData "ResultDesc" Hcb) as [rd Hrd].
  unfold reconcile; unfold_monad.
  rewrite Hb, He, Hc, Hmr, Hrc, Hrd, Hm, Ht, Hi. cbn [Js.for_each_items].
  match goal with
  | |- context [scan_items ?t items] =>
      destruct (scan_items_fields items t Hitems) as (t' & -> & E)
  end.
  eexists. split; [reflexivity|]. exact E.
Qed.

Lemma metadata_last_item_wins_witness :
  exists r,
    reconcile
      (callback_of
         (Js.Obj [("ResultCode", Js.int 0);
                  ("CallbackMetadata",
                    Js.Obj [("Item", Js.Arr repeated_items)])]))
      initial_state
    = (Js.Ok r, initial_state) /\
    amount (baseTransaction r) = Js.int 700 /\
    mpesaReceiptNumber (baseTransaction r) = Js.Null /\
    transactionDate (baseTransaction r) = Js.Null /\
    phoneNumber (baseTransaction r) = Js.Undefined.
Proof.
  apply (metadata_last_item_wins
           (callback_of
              (Js.Obj [("ResultCode", Js.int 0);
                       ("CallbackMetadata",
                         Js.Obj [("Item", Js.Arr repeated_items)])]))
           _ _ _ repeated_items initial_state
           eq_refl eq_refl eq_refl eq_refl eq_refl).
Defined.

(** ** The diagnostic and registration routes *)

(** X14.  [/access_token] answers with the token of a fresh request to
    the token endpoint on every call: 200 and [{ access_token }] when
    one is obtained, 500 and one of the two messages of
    [getAccessToken] as [error] otherwise, whatever the runtime's own
    error messages are. *)
Theorem access_token_route_answers (runtime_message : Js.exn -> string)
  (w : World) (st : State) :
  match credentials w with
  | None =>
      access_token_route runtime_message w st
      = (Replied (json 500
           [("error",
             Js.Str "Missing M-Pesa credentials in environment variables")]),
         st)
  | Some (k, s) =>
      exists r st1,
        access_token_route runtime_message w st = (Replied r, st1) /\
        emitted st st1 = [HttpGet token_url (basic_auth k s)] /\
        match http_get w token_url (basic_auth k s) with
        | Rejected | Resolved Js.Undefined | Resolved Js.Null =>
            r = json 500 [("error", Js.Str "Failed to get access token")]
        | Resolved data => r = json 200 [("access_token", field data "access_token")]
        end
  end.
Proof.
  unfold access_token_route; unfold_monad.
  destruct (credentials w) as [[k s]|] eqn:Hc.
  - rewrite (getAccessToken_configured w st k s Hc).
    destruct (http_get w token_url (basic_auth k s)) as [|data].
    + eexists _, _. split; [reflexivity|]. split; [now apply emitted_app|].
      reflexivity.
    + unfold field.
      destruct data; cbn [Js.get]; eexists _, _;
        (split; [reflexivity|]; split; [now apply emitted_app|]; reflexivity).
  - now rewrite (getAccessToken_missing w st Hc).
Qed.

(** X15.  [/registerurl] sends its registration request only after a
    token request of its own, at most once, to the registration
    endpoint, with the configured short code and the response type
    ["Completed"]; it answers 200 with the gateway's answer as the
    whole body when that request resolves and 500 "Failed to register
    URLs" when it is rejected; with no registration request sent the
    answer is one of the two 500s. *)
Theorem registerurl_route_answers (w : World)
  (post : string -> RegisterRequest -> string -> axios_result)
  (b : Js.value) (st st1 : State) (answer : reply)
  (calls : list RegisterCall) :
  registerurl_route w post b st = (answer, st1, calls) ->
  (calls = [] /\
   (answer = Replied auth_failed \/ answer = Replied register_failed))
  \/
  exists k s bearer,
    credentials w = Some (k, s) /\
    emitted st st1 = [HttpGet token_url (basic_auth k s)] /\
    calls
    = [{| register_url := registerUrl;
          register_data :=
            {| ShortCode := Js.of_env (env w "BUSINESSSHORTCODE");
               ResponseType := "Completed";
               ConfirmationURL := Js.of_env (env w "CONFIRMATIONURL");
               ValidationURL := Js.of_env (env w "VALIDATIONURL") |};
          register_authorization := "Bearer " ++ bearer |}] /\
    match
      post registerUrl
        {| ShortCode := Js.of_env (env w "BUSINESSSHORTCODE");
           ResponseType := "Completed";
           ConfirmationURL := Js.of_env (env w "CONFIRMATIONURL");
           ValidationURL := Js.of_env (env w "VALIDATIONURL") |}
        ("Bearer " ++ bearer)
    with
    | Rejected => answer = Replied register_failed
    | Resolved data => answer = Replied {| status := 200; payload := Json data |}
    end.
Proof.
  unfold registerurl_route. rewrite attachAccessToken_cases.
  destruct (credentials w) as [[k s]|] eqn:Hc.
  - rewrite (getAccessToken_configured w st k s Hc).
    destruct (http_get w token_url (basic_auth k s)) as [|data];
      [intros H; inversion H; subst; left; auto|].
    destruct (Js.get data "access_token") as [token|];
      [|intros H; inversion H; subst; left; auto].
    unfold registerurl_handler. cbn [accessToken].
    destruct (Js.to_string token) as [bearer|];
      [|intros H; inversion H; subst; left; auto].
    intros H. right. exists k, s, bearer. split; [reflexivity|].
    destruct (post registerUrl _ _) as [|d]; inversion H; subst;
      (split; [now apply emitted_app|]); split; reflexivity.
  - rewrite (getAccessToken_missing w st Hc).
    intros H; inversion H; subst; left; auto.
Qed.

Lemma registerurl_route_answers_witness :
  (([] : list RegisterCall) = [] /\
   (Replied auth_failed = Replied auth_failed \/
    Replied auth_failed = Replied register_failed))
  \/
  exists k s bearer,
    credentials no_credentials_world = Some (k, s) /\
    emitted initial_state initial_state
    = [HttpGet token_url (basic_auth k s)] /\
    ([] : list RegisterCall)
    = [{| register_url := registerUrl;
          register_data :=
            {| ShortCode :=
                 Js.of_env (env no_credentials_world "BUSINESSSHORTCODE");
               ResponseType := "Completed";
               ConfirmationURL :=
                 Js.of_env (env no_credentials_world "CONFIRMATIONURL");
               ValidationURL :=
                 Js.of_env (env no_credentials_world "VALIDATIONURL") |};
          register_authorization := "Bearer " ++ bearer |}] /\
    match
      (fun _ _ _ => Rejected) registerUrl
        {| ShortCode :=
             Js.of_env (env no_credentials_world "BUSINESSSHORTCODE");
           ResponseType := "Completed";
           ConfirmationURL :=
             Js.of_env (env no_credentials_world "CONFIRMATIONURL");
           ValidationURL :=
             Js.of_env (env no_credentials_world "VALIDATIONURL") |}
        ("Bearer " ++ bearer)
    with
    | Rejected => Replied auth_failed = Replied register_failed
    | Resolved data =>
        Replied auth_failed = Replied {| status := 200; payload := Json data |}
    end.
Proof.
  apply (registerurl_route_answers no_credentials_world
           (fun _ _ _ => Rejected) Js.Undefined initial_state initial_state
           (Replied auth_failed) []).
  reflexivity.
Defined.

Example registerurl_sample :
  registerurl_route sample_world
    (fun _ _ _ => Resolved (Js.Obj [("ResponseDescription", Js.Str "success")]))
    (Js.Obj []) initial_state
  = (Replied {| status := 200;
                payload :=
                  Json (Js.Obj [("ResponseDescription", Js.Str "success")]) |},
     {| pendingTransactions := [];
        trace := [HttpGet token_url "Basic a2V5OnNlY3JldA=="] |},
     [{| register_url := registerUrl;
         register_data :=
           {| ShortCode := Js.Str "174379";
              ResponseType := "Completed";
              ConfirmationURL := Js.Undefined;
              ValidationURL := Js.Undefined |};
         register_authorization := "Bearer tok" |}]).
Proof. reflexivity. Qed.

(** ** The second variant *)

(** X16.  The two variants of the validation middleware decide alike:
    on two bodies that hold the same values, one under [phoneNumber]
    and [amount] and the other under [phone_number] and
    [payable_amount], they answer with the same 400, or both call
    [next()], or both throw. *)
Theorem legacy_validation_agrees (b1 b2 : Js.value) (st : State)
  (a1 a2 : Js.value) :
  Js.get b1 "phoneNumber" = Js.get b2 "phone_number" ->
  Js.get b1 "amount" = Js.get b2 "payable_amount" ->
  match
    validateStkPushRequest {| req_body := b1; accessToken := a1 |} st,
    Legacy.validateStkPushRequest {| req_body := b2; accessToken := a2 |} st
  with
  | (Js.Ok (Respond r1), st1), (Js.Ok (Respond r2), st2) =>
      r1 = r2 /\ st1 = st /\ st2 = st
  | (Js.Ok (Next q1), st1), (Js.Ok (Next q2), st2) =>
      req_body q1 = b1 /\ req_body q2 = b2 /\ st1 = st /\ st2 = st
  | (Js.Throw e1, st1), (Js.Throw e2, st2) => e1 = e2 /\ st1 = st /\ st2 = st
  | _, _ => False
  end.
Proof.
  intros Hp Ha.
  unfold validateStkPushRequest, Legacy.validateStkPushRequest; unfold_monad.
  cbn [req_body]. rewrite Hp, Ha.
  destruct (Js.get b2 "phone_number") as [phone|]; [|auto].
  destruct (Js.get b2 "payable_amount") as [amt|]; [|auto].
  destruct (negb (Js.truthy phone) || negb (Js.truthy amt)); [auto|].
  destruct (Js.to_string phone) as [s|]; [|auto].
  destruct (negb (phone_pattern s)); [auto|].
  destruct (Js.to_number amt) as [n|]; [|auto].
  destruct (Js.is_nan n || Js.le_zero n); cbn; auto.
Qed.

Lemma legacy_validation_agrees_witness :
  match
    validateStkPushRequest
      {| req_body := sample_body; accessToken := Js.Undefined |} initial_state,
    Legacy.validateStkPushRequest
      {| req_body := legacy_body; accessToken := Js.Undefined |} initial_state
  with
  | (Js.Ok (Respond r1), st1), (Js.Ok (Respond r2), st2) =>
      r1 = r2 /\ st1 = initial_state /\ st2 = initial_state
  | (Js.Ok (Next q1), st1), (Js.Ok (Next q2), st2) =>
      req_body q1 = sample_body /\ req_body q2 = legacy_body /\
      st1 = initial_state /\ st2 = initial_state
  | (Js.Throw e1, st1), (Js.Throw e2, st2) =>
      e1 = e2 /\ st1 = initial_state /\ st2 = initial_state
  | _, _ => False
  end.
Proof.
  apply (legacy_validation_agrees sample_body legacy_body initial_state
           Js.Undefined Js.Undefined); reflexivity.
Defined.

(** X17.  The push request of the second variant carries the caller's
    [phone_number] and [payable_amount], and always the account
    reference ["Uniconnect PAY"] and the description ["Payment for
    uniconnect services"], whatever the caller sent; any answer of the
    gateway that resolves, [null] included, is returned as [data] with
    200. *)
Theorem legacy_push_request (w : World) (req : Request) (st : State)
  (bearer : string) :
  readable (req_body req) = true ->
  Js.to_string (accessToken req) = Js.Ok bearer ->
  exists request,
    emitted st (snd (Legacy.stkpush_handler w req st))
    = [HttpPost stkPushUrl request ("Bearer " ++ bearer)] /\
    Js.get (req_body req) "phone_number" = Js.Ok (PartyA request) /\
    PhoneNumber request = PartyA request /\
    Js.get (req_body req) "payable_amount" = Js.Ok (Amount request) /\
    AccountReference request = Js.Str "Uniconnect PAY" /\
    TransactionDesc request = Js.Str "Payment for uniconnect services" /\
    Timestamp request = format_YYYYMMDDHHmmss (clock w) /\
    password_of (BusinessShortCode request) (Js.of_env (env w "PASSKEY"))
      (Timestamp request) = Js.Ok (Password request) /\
    fst (Legacy.stkpush_handler w req st)
    = Js.Ok match http_post w stkPushUrl request ("Bearer " ++ bearer) with
            | Rejected => push_failed
            | Resolved data => push_sent data
            end.
Proof.
  intros Hb Ht. unfold Legacy.stkpush_handler.
  destruct (get_readable (req_body req) "phone_number" Hb) as [p Hp].
  destruct (get_readable (req_body req) "payable_amount" Hb) as [a Ha].
  rewrite Hp, Ha, password_of_env, Ht.
  unfold axios_post; unfold_monad.
  match goal with
  | |- context [http_post w stkPushUrl ?d _] => exists d
  end.
  split; [|split; [reflexivity|]; split; [reflexivity|];
           split; [reflexivity|]; split; [reflexivity|];
           split; [reflexivity|]; split; [reflexivity|]; split].
  - destruct (http_post w stkPushUrl _ _); now apply emitted_app.
  - cbn. apply password_of_env.
  - destruct (http_post w stkPushUrl _ _); reflexivity.
Qed.

Lemma legacy_push_request_witness :
  exists request,
    emitted initial_state
      (snd (Legacy.stkpush_handler null_answer_world
              {| req_body := legacy_body; accessToken := Js.Str "tok" |}
              initial_state))
    = [HttpPost stkPushUrl request ("Bearer " ++ "tok")] /\
    Js.get legacy_body "phone_number" = Js.Ok (PartyA request) /\
    PhoneNumber request = PartyA request /\
    Js.get legacy_body "payable_amount" = Js.Ok (Amount request) /\
    AccountReference request = Js.Str "Uniconnect PAY" /\
    TransactionDesc request = Js.Str "Payment for uniconnect services" /\
    Timestamp request = format_YYYYMMDDHHmmss (clock null_answer_world) /\
    password_of (BusinessShortCode request)
      (Js.of_env (env null_answer_world "PASSKEY")) (Timestamp request)
    = Js.Ok (Password request) /\
    fst (Legacy.stkpush_handler null_answer_world
           {| req_body := legacy_body; accessToken := Js.Str "tok" |}
           initial_state)
    = Js.Ok match
              http_post null_answer_world stkPushUrl request ("Bearer " ++ "tok")
            with
            | Rejected => push_failed
            | Resolved data => push_sent data
            end.
Proof.
  apply (legacy_push_request null_answer_world
           {| req_body := legacy_body; accessToken := Js.Str "tok" |}
           initial_state "tok"); reflexivity.
Defined.

(** ** Timestamps and passwords *)

Lemma string_ind3 (P : string -> Prop) :
  P EmptyString ->
  (forall a, P (String a EmptyString)) ->
  (forall a b, P (String a (String b EmptyString))) ->
  (forall a b c r, P r -> P (String a (String b (String c r)))) ->
  forall s, P s.
Proof.
  intros H0 H1 H2 H3.
  assert (H : forall n s, (String.length s <= n)%nat -> P s).
  { induction n as [|n IH]; intros s Hl;
      destruct s as [|a [|b [|c r]]]; auto; cbn in Hl; try lia.
    apply H3, IH. lia. }
  intros s. apply (H (String.length s)). lia.
Qed.

Lemma length_append (a b : string) :
  String.length (a ++ b) = (String.length a + String.length b)%nat.
Proof. induction a as [|x a IH]; cbn; [reflexivity | now rewrite IH]. Qed.

Lemma all_append (p : ascii -> bool) (a b : string) :
  Str.all p (a ++ b) = Str.all p a && Str.all p b.
Proof.
  induction a as [|x a IH]; cbn; [reflexivity|].
  now rewrite IH, andb_assoc.
Qed.

Lemma digits_of_width_append (m n : nat) (a b : string) :
  digits_of_width m a = true -> digits_of_width n b = true ->
  digits_of_width (m + n) (a ++ b) = true.
Proof.
  unfold digits_of_width. intros Ha Hb.
  apply andb_true_iff in Ha as [La Da]. apply andb_true_iff in Hb as [Lb Db].
  apply Nat.eqb_eq in La, Lb.
  rewrite length_append, all_append, La, Lb, Da, Db, Nat.eqb_refl.
  reflexivity.
Qed.

Lemma N_below_complete (k n : N) : (n < k)%N -> In n (N_below k).
Proof.
  intros H. unfold N_below. apply in_map_iff.
  exists (N.to_nat n). split; [apply N2Nat.id|].
  apply in_seq. lia.
Qed.

Lemma pad_digits (width : nat) (k : N) :
  List.forallb (fun n => digits_of_width width (pad width n)) (N_below k)
  = true ->
  forall n, (n < k)%N -> digits_of_width width (pad width n) = true.
Proof.
  intros H n Hn. rewrite List.forallb_forall in H.
  apply H, N_below_complete, Hn.
Qed.

Lemma pad2_digits (n : N) : (n < 100)%N -> digits_of_width 2 (pad 2 n) = true.
Proof. apply (pad_digits 2 100). vm_compute. reflexivity. Qed.

Lemma pad4_digits (n : N) : (n < 10000)%N -> digits_of_width 4 (pad 4 n) = true.
Proof. apply (pad_digits 4 10000). vm_compute. reflexivity. Qed.

(** X18.  For a clock reading within the calendar's ranges the
    [Timestamp] of a push request is a string of exactly fourteen
    ASCII digits, and the timestamp of [/] and [/health] has nineteen
    characters. *)
Theorem timestamp_has_fourteen_digits (t : DateTime) :
  clock_in_range t ->
  digits_of_width 14 (format_YYYYMMDDHHmmss t) = true /\
  String.length (format_YYYY_MM_DD_HH_mm_ss t) = 19%nat.
Proof.
  intros (Hy & Hmo & Hd & Hh & Hmi & Hs).
  assert (Y := pad4_digits (year t) ltac:(lia)).
  assert (Mo := pad2_digits (month t) ltac:(lia)).
  assert (D := pad2_digits (day t) ltac:(lia)).
  assert (H := pad2_digits (hour t) ltac:(lia)).
  assert (Mi := pad2_digits (minute t) ltac:(lia)).
  assert (S := pad2_digits (second t) ltac:(lia)).
  split.
  - unfold format_YYYYMMDDHHmmss.
    apply (digits_of_width_append 4 10); [exact Y|].
    apply (digits_of_width_append 2 8); [exact Mo|].
    apply (digits_of_width_append 2 6); [exact D|].
    apply (digits_of_width_append 2 4); [exact H|].
    apply (digits_of_width_append 2 2); assumption.
  - unfold format_YYYY_MM_DD_HH_mm_ss, digits_of_width in *.
    apply andb_true_iff in Y as [Y _], Mo as [Mo _], D as [D _],
      H as [H _], Mi as [Mi _], S as [S _].
    apply Nat.eqb_eq in Y, Mo, D, H, Mi, S.
    rewrite !length_append, Y, Mo, D, H, Mi, S. reflexivity.
Qed.

Lemma timestamp_has_fourteen_digits_witness :
  digits_of_width 14 (format_YYYYMMDDHHmmss sample_clock) = true /\
  String.length (format_YYYY_MM_DD_HH_mm_ss sample_clock) = 19%nat.
Proof.
  apply (timestamp_has_fourteen_digits sample_clock).
  unfold clock_in_range. cbn. lia.
Defined.

(** X19.  The base64 text of [n] bytes has [4 * ceil(n / 3)]
    characters. *)
Theorem base64_length (s : string) :
  String.length (Base64.encode s) = (4 * ((String.length s + 2) / 3))%nat.
Proof.
  induction s as [| a | a b | a b c r IH] using string_ind3;
    try reflexivity.
  cbn [Base64.encode String.length]. rewrite IH.
  replace (S (S (S (String.length r))) + 2)%nat
    with (1 * 3 + (String.length r + 2))%nat by lia.
  rewrite Nat.div_add_l by lia. lia.
Qed.

(** ** The encoding loses nothing *)

Lemma below_64 (P : N -> bool) :
  List.forallb P (N_below 64) = true -> forall i, (i < 64)%N -> P i = true.
Proof.
  intros H i Hi. rewrite List.forallb_forall in H.
  apply H, N_below_complete, Hi.
Qed.

Lemma base64_value_digit (i : N) :
  (i < 64)%N -> base64_value (Base64.digit i) = i.
Proof.
  intros Hi. apply N.eqb_eq.
  apply (below_64 (fun i => N.eqb (base64_value (Base64.digit i)) i));
    [vm_compute; reflexivity | exact Hi].
Qed.

Lemma digit_is_not_padding (i : N) :
  (i < 64)%N -> Ascii.eqb (Base64.digit i) "=" = false.
Proof.
  intros Hi. apply negb_true_iff.
  apply (below_64 (fun i => negb (Ascii.eqb (Base64.digit i) "=")));
    [vm_compute; reflexivity | exact Hi].
Qed.

Lemma byte_code (a : ascii) : byte (Str.code a) = a.
Proof.
  unfold byte, Str.code.
  rewrite N.mod_small by apply N_ascii_bounded.
  apply ascii_N_embedding.
Qed.

Ltac euclid := zify; Z.to_euclidean_division_equations; lia.

(** Decoding what was encoded gives the bytes back. *)
Lemma base64_round_trip (s : string) :
  base64_decode (Base64.encode s) = Some s.
Proof.
  induction s as [| a | a b | a b c r IH] using string_ind3.
  - reflexivity.
  - pose proof (N_ascii_bounded a) as Ha. fold (Str.code a) in Ha.
    cbn [Base64.encode base64_decode append].
    rewrite !base64_value_digit by euclid.
    cbn [Ascii.eqb Bool.eqb].
    replace (Str.code a / 4 * 4 + Str.code a mod 4 * 16 / 16)%N
      with (Str.code a) by euclid.
    now rewrite byte_code.
  - pose proof (N_ascii_bounded a) as Ha. fold (Str.code a) in Ha.
    pose proof (N_ascii_bounded b) as Hb. fold (Str.code b) in Hb.
    cbn [Base64.encode base64_decode append].
    rewrite !base64_value_digit by euclid.
    rewrite digit_is_not_padding by euclid.
    cbn [Ascii.eqb Bool.eqb].
    replace (Str.code a / 4 * 4
             + (Str.code a mod 4 * 16 + Str.code b / 16) / 16)%N
      with (Str.code a) by euclid.
    replace ((Str.code a mod 4 * 16 + Str.code b / 16) mod 16 * 16
             + Str.code b mod 16 * 4 / 4)%N
      with (Str.code b) by euclid.
    now rewrite !byte_code.
  - pose proof (N_ascii_bounded a) as Ha. fold (Str.code a) in Ha.
    pose proof (N_ascii_bounded b) as Hb. fold (Str.code b) in Hb.
    pose proof (N_ascii_bounded c) as Hc. fold (Str.code c) in Hc.
    cbn [Base64.encode base64_decode]. rewrite IH.
    rewrite !base64_value_digit by euclid.
    rewrite !digit_is_not_padding by euclid.
    replace (Str.code a / 4 * 4
             + (Str.code a mod 4 * 16 + Str.code b / 16) / 16)%N
      with (Str.code a) by euclid.
    replace ((Str.code a mod 4 * 16 + Str.code b / 16) mod 16 * 16
             + (Str.code b mod 16 * 4 + Str.code c / 64) / 4)%N
      with (Str.code b) by euclid.
    replace ((Str.code b mod 16 * 4 + Str.code c / 64) mod 4 * 64
             + Str.code c mod 64)%N
      with (Str.code c) by euclid.
    now rewrite !byte_code.
Qed.

Lemma append_cancel (a b c : string) : a ++ b = a ++ c -> b = c.
Proof.
  induction a as [|x a IH]; cbn; intros H; [exact H|].
  inversion H. auto.
Qed.

(** X20.  The base64 encoding is injective, so the password of a push
    request determines what it was computed from: with the same two
    secrets, requests with different timestamps have different
    passwords. *)
Theorem password_determines_timestamp (shortCode passKey : option string)
  (timestamp1 timestamp2 : string) :
  (forall s1 s2, Base64.encode s1 = Base64.encode s2 -> s1 = s2) /\
  (password_of (Js.of_env shortCode) (Js.of_env passKey) timestamp1
   = password_of (Js.of_env shortCode) (Js.of_env passKey) timestamp2 ->
   timestamp1 = timestamp2).
Proof.
  assert (Hinj : forall s1 s2, Base64.encode s1 = Base64.encode s2 -> s1 = s2).
  { intros s1 s2 H.
    pose proof (base64_round_trip s1) as H1.
    rewrite H, base64_round_trip in H1. now inversion H1. }
  split; [exact Hinj|].
  rewrite !password_of_env. intros H. inversion H as [H'].
  apply Hinj in H'. now apply append_cancel in H'.
Qed.

Lemma password_determines_timestamp_witness :
  "20240101120005" = "20240101120005".
Proof.
  apply (proj2 (password_determines_timestamp (Some "174379") (Some "passkey")
                  "20240101120005" "20240101120005")).
  reflexivity.
Defined.

(** ** Independence of the history *)

Lemma validate_ignores_state (req : Request) (st1 st2 : State) :
  fst (validateStkPushRequest req st1) = fst (validateStkPushRequest req st2).
Proof.
  unfold validateStkPushRequest; unfold_monad.
  case_split; reflexivity.
Qed.

Lemma getAccessToken_ignores_state (w : World) (st1 st2 : State) :
  fst (getAccessToken w st1) = fst (getAccessToken w st2).
Proof.
  destruct (credentials w) as [[k s]|] eqn:Hc.
  - now rewrite !(getAccessToken_configured w _ k s Hc).
  - now rewrite !(getAccessToken_missing w _ Hc).
Qed.

(** X21.  The server keeps nothing between requests that an answer
    could depend on: the same request in the same world gets the same
    answer and makes the same calls whatever the server has served
    before, for initiations and for callbacks alike. *)
Theorem answers_ignore_history (w : World) (b : Js.value) (rs1 rs2 : list Incoming) :
  fst (stkpush_route w b (run initial_state rs1))
  = fst (stkpush_route w b (run initial_state rs2)) /\
  emitted (run initial_state rs1)
    (snd (stkpush_route w b (run initial_state rs1)))
  = emitted (run initial_state rs2)
      (snd (stkpush_route w b (run initial_state rs2))) /\
  fst (stk_callback_route b (run initial_state rs1))
  = fst (stk_callback_route b (run initial_state rs2)).
Proof.
  generalize (run initial_state rs1) as st1, (run initial_state rs2) as st2.
  intros st1 st2.
  pose proof (validate_ignores_state
                {| req_body := b; accessToken := Js.Undefined |} st1 st2) as Hv.
  pose proof (getAccessToken_ignores_state w st1 st2) as Hg.
  split; [|split].
  - rewrite !stkpush_route_run.
    destruct (validateStkPushRequest _ st1) as [[[r1|q1]|e1] s1],
      (validateStkPushRequest _ st2) as [[[r2|q2]|e2] s2];
      cbn in Hv; inversion Hv; subst; try reflexivity.
    destruct (getAccessToken w st1) as [[t1|x1] u1],
      (getAccessToken w st2) as [[t2|x2] u2];
      cbn in Hg; inversion Hg; subst; try reflexivity.
    destruct (Js.to_string t2); reflexivity.
  - rewrite !stkpush_route_emitted.
    destruct (validateStkPushRequest _ st1) as [[[r1|q1]|e1] s1],
      (validateStkPushRequest _ st2) as [[[r2|q2]|e2] s2];
      cbn in Hv; inversion Hv; subst; reflexivity.
  - now rewrite !stk_callback_route_cases.
Qed.

(** ** The answers of the initiate endpoint *)

(** C9 (as the source has it).  The initiate endpoint answers
    - 400 with [{ error }] when validation fails;
    - 500 with [{ error }], without a [success] property, when no
      token could be obtained;
    - after one push request, 200 with [{ success: true, message,
      data }], [data] being the gateway's answer, when that request
      resolves with an answer that can be read, and 500 with
      [{ success: false, error }] when it is rejected or resolves with
      [null];
    - 500 with [{ success: false, error }], without a push request,
      when the token has no string form. *)
Theorem stkpush_response_shapes (w : World) (st : State) (b : Js.value) :
  (forall r st0,
      validateStkPushRequest {| req_body := b; accessToken := Js.Undefined |} st
      = (Js.Ok (Respond r), st0) ->
      stkpush_route w b st = (Replied r, st) /\
      status r = 400 /\ response_keys r = ["error"]) /\
  (forall req st0 e st1,
      validateStkPushRequest {| req_body := b; accessToken := Js.Undefined |} st
      = (Js.Ok (Next req), st0) ->
      getAccessToken w st = (Js.Throw e, st1) ->
      exists r,
        stkpush_route w b st = (Replied r, st1) /\
        status r = 500 /\ response_keys r = ["error"]) /\
  (forall req st0 token st1 bearer,
      validateStkPushRequest {| req_body := b; accessToken := Js.Undefined |} st
      = (Js.Ok (Next req), st0) ->
      getAccessToken w st = (Js.Ok token, st1) ->
      Js.to_string token = Js.Ok bearer ->
      exists r st2,
        stkpush_route w b st = (Replied r, st2) /\
        emitted st1 st2
        = [HttpPost stkPushUrl (push_request_of w b) ("Bearer " ++ bearer)] /\
        match
          http_post w stkPushUrl (push_request_of w b) ("Bearer " ++ bearer)
        with
        | Resolved Js.Undefined | Resolved Js.Null | Rejected =>
            status r = 500 /\
            response_keys r = ["success"; "error"] /\
            response_field r "success" = Js.Bool false
        | Resolved data =>
            status r = 200 /\
            response_keys r = ["success"; "message"; "data"] /\
            response_field r "success" = Js.Bool true /\
            response_data r = data
        end) /\
  (forall req st0 token st1 e,
      validateStkPushRequest {| req_body := b; accessToken := Js.Undefined |} st
      = (Js.Ok (Next req), st0) ->
      getAccessToken w st = (Js.Ok token, st1) ->
      Js.to_string token = Js.Throw e ->
      exists r,
        stkpush_route w b st = (Replied r, st1) /\
        status r = 500 /\
        response_keys r = ["success"; "error"] /\
        response_field r "success" = Js.Bool false).
Proof.
  split; [|split; [|split]].
  - intros r st0 Hv. rewrite stkpush_route_run, Hv.
    apply validate_respond in Hv as [_ [msg ->]]. auto.
  - intros req st0 e st1 Hv Hg. rewrite stkpush_route_run, Hv, Hg.
    exists auth_failed. auto.
  - intros req st0 token st1 bearer Hv Hg Ht.
    rewrite stkpush_route_run, Hv, Hg, Ht.
    eexists _, _. split; [reflexivity|]. split; [now apply emitted_app|].
    destruct (http_post w stkPushUrl _ _) as [|data]; [cbn; auto|].
    destruct data; cbn; auto.
  - intros req st0 token st1 e Hv Hg Ht.
    rewrite stkpush_route_run, Hv, Hg, Ht.
    exists push_failed. auto.
Qed.

Lemma stkpush_response_shapes_witness :
  (exists r,
     stkpush_route no_credentials_world sample_body initial_state
     = (Replied r, initial_state) /\
     status r = 500 /\ response_keys r = ["error"]) /\
  (exists r st2,
     stkpush_route sample_world sample_body initial_state = (Replied r, st2) /\
     emitted (snd (getAccessToken sample_world initial_state)) st2
     = [HttpPost stkPushUrl (push_request_of sample_world sample_body)
          ("Bearer " ++ "tok")] /\
     status r = 200 /\
     response_keys r = ["success"; "message"; "data"] /\
     response_field r "success" = Js.Bool true /\
     response_data r = push_response) /\
  (exists r st2,
     stkpush_route refusing_world sample_body initial_state = (Replied r, st2) /\
     emitted (snd (getAccessToken refusing_world initial_state)) st2
     = [HttpPost stkPushUrl (push_request_of refusing_world sample_body)
          ("Bearer " ++ "tok")] /\
     status r = 500 /\
     response_keys r = ["success"; "error"] /\
     response_field r "success" = Js.Bool false).
Proof.
  split; [|split].
  - apply (proj1 (proj2 (stkpush_response_shapes no_credentials_world
                           initial_state sample_body))
             {| req_body := sample_body; accessToken := Js.Undefined |}
             initial_state
             (Js.Error "Missing M-Pesa credentials in environment variables")
             initial_state);
      reflexivity.
  - apply (proj1 (proj2 (proj2 (stkpush_response_shapes sample_world
                                  initial_state sample_body)))
             {| req_body := sample_body; accessToken := Js.Undefined |}
             initial_state (Js.Str "tok")
             (snd (getAccessToken sample_world initial_state)) "tok");
      reflexivity.
  - apply (proj1 (proj2 (proj2 (stkpush_response_shapes refusing_world
                                  initial_state sample_body)))
             {| req_body := sample_body; accessToken := Js.Undefined |}
             initial_state (Js.Str "tok")
             (snd (getAccessToken refusing_world initial_state)) "tok");
      reflexivity.
Defined.

(** An amount that binary64 rounds to zero is refused like zero. *)
Example tiny_amount_is_refused :
  stkpush_route sample_world tiny_amount_body initial_state
  = (Replied (json 400
       [("error", Js.Str "Invalid amount. Must be a positive number")]),
     initial_state).
Proof. vm_compute. reflexivity. Qed.

Example rounding_samples :
  Js.to_number (Js.Str "1e-400") = Js.Ok (Js.Dec 0 0) /\
  Js.to_number (Js.Str "1e400") = Js.Ok (Js.Inf false) /\
  Js.to_number (Js.Str "9007199254740993")
  = Js.Ok (Js.Dec 9007199254740992 0) /\
  Js.to_string (Js.Num (Js.Dec 25471234567800000000001 (-11)))
  = Js.Ok "254712345678" /\
  Js.to_string (Js.Num (Js.Dec 30000000000000004 (-17)))
  = Js.Ok "0.30000000000000004" /\
  Js.to_string (Js.Num (Js.Dec 30000000000000001 (-17))) = Js.Ok "0.3" /\
  Js.to_string (Js.Num (Js.Dec 1 23)) = Js.Ok "1e+23" /\
  Js.to_string (Js.Num (Js.Dec 5 (-324))) = Js.Ok "5e-324" /\
  Js.to_string (Js.Num (Js.Dec 2 (-324))) = Js.Ok "0" /\
  Js.le_zero (Js.Dec 1 (-400)) = true /\
  Js.number_add (Js.Dec 1 (-1)) (Js.Dec 2 (-1))
  = Js.Dec 30000000000000004 (-17).
Proof. vm_compute. repeat split; reflexivity. Qed.
